(** * Pipulate: the linear workflow engine of [workflows/workflow_template.py]

    A shallow embedding of [HelloFlow] (the workflow template) and of the
    part of the [Pipulate] helper object it drives, followed by the
    properties of the engine's state machine: step submission, revert,
    finalize / unfinalize, rendering and the defaults for missing ids. *)

From stdpp Require Import base option list strings gmap fin_maps.

Open Scope string_scope.
Open Scope nat_scope.

(** ** Python values *)

(** A Python object that is either [None] or a [str]: what [form.get(k)]
    and [db.get(k)] return. *)
Abbreviation pyobj := (option string) (only parsing).

(** Leaves of a state document, as the engine writes them: a step's field
    holds the processed string, the finalize step's field holds [True]. *)
Inductive value : Type :=
| VStr (s : string)
| VTrue.

(** A top-level entry of the state document: a step's [{field: value}]
    dictionary, or a string ([_revert_target], [updated]). *)
Inductive entry : Type :=
| Data (d : gmap string value)
| Scalar (s : string).

(** The state document of one pipeline is a JSON object of such entries,
    [gmap string entry]. *)

(** [str(v)], as in an f-string. *)
Definition py_str (v : value) : string :=
  match v with
  | VStr s => s
  | VTrue => "True"
  end.

(** Truth value of a leaf: a string is true when it is not empty. *)
Definition truthy (v : value) : bool :=
  match v with
  | VStr s => bool_decide (s ≠ "")
  | VTrue => true
  end.

(** [pat in s] on two strings: [pat] occurs in [s]. *)
Fixpoint occurs (pat s : string) : bool :=
  String.prefix pat s ||
  match s with
  | EmptyString => false
  | String _ s' => occurs pat s'
  end.

(** [k in e]: key membership on a dictionary, substring test on a string. *)
Definition contains (k : string) (e : entry) : bool :=
  match e with
  | Data d => bool_decide (is_Some (d !! k))
  | Scalar s => occurs k s
  end.

(** ** Exceptions and the handler monad *)

Inductive exn : Type :=
| KeyError (k : string)
| IndexError
| AttributeError.

Inductive res (A : Type) : Type :=
| Ok (a : A)
| Raise (e : exn).
Arguments Ok {A} a.
Arguments Raise {A} e.

(** Side-channel notices sent through [pip.simulated_stream].  The text of
    two of them is computed by helpers of [Pipulate] ([fmt],
    [get_state_message]); they are kept symbolic. *)
Inductive notice : Type :=
| Text (s : string)
| StepInputMessage (step_id : string)
| StateMessage (pipeline_id : pyobj).

(** Everything a handler can read or write: the pipeline table (one state
    document per pipeline id), the session store [db] and the notices
    streamed so far. *)
Record world : Type := World {
  store : gmap pyobj (gmap string entry);
  db : gmap string pyobj;
  notices : list notice
}.

Definition M (A : Type) : Type := world → res A * world.

Definition ret {A} (a : A) : M A := λ w, (Ok a, w).

Definition raise {A} (e : exn) : M A := λ w, (Raise e, w).

Definition bind {A B} (m : M A) (f : A → M B) : M B :=
  λ w, match m w with
       | (Ok a, w') => f a w'
       | (Raise e, w') => (Raise e, w')
       end.

Notation "'let*' x := m 'in' k" := (bind m (λ x, k))
  (at level 10, x name, m at level 100, k at level 200,
   format "'[v' 'let*'  x  :=  m  'in' '/' k ']'").
Notation "'let*' ' pat := m 'in' k" :=
  (bind m (λ x, match x with pat => k end))
  (at level 10, pat pattern, m at level 100, k at level 200,
   format "'[v' 'let*'  ' pat  :=  m  'in' '/' k ']'").
Notation "m ;;; k" := (bind m (λ _, k))
  (at level 100, k at level 200, right associativity).

(** Lift an optional result, raising [e] when it is absent. *)
Definition or_raise {A} (o : option A) (e : exn) : M A :=
  match o with
  | Some a => ret a
  | None => raise e
  end.

(** [d.get(k, dflt)] on an object expected to be a dictionary. *)
Definition entry_get (e : entry) (k : string) (dflt : value) : M value :=
  match e with
  | Data d => ret (default dflt (d !! k))
  | Scalar _ => raise AttributeError
  end.

(** ** Step definitions *)

(** [Step = namedtuple('Step', ['id','done','show','refill','transform'])] *)
Record Step : Type := mkStep {
  id : string;
  done : string;
  show : string;
  refill : bool;
  transform : option (value → value)
}.

(** The class attributes and overridable methods of a workflow. *)
Record workflow : Type := Workflow {
  app_name : string;
  steps : list Step;
  PRESERVE_REFILL : bool;
  validate_step : string → string → bool * string;
  process_step : string → string → string
}.

(** [{step.id: i for i, step in enumerate(steps)}]: a later duplicate
    overwrites an earlier one. *)
Fixpoint indices_from (i : nat) (l : list Step) (acc : gmap string nat)
  : gmap string nat :=
  match l with
  | [] => acc
  | s :: l' => indices_from (S i) l' (<[id s := i]> acc)
  end.

Definition steps_indices (wf : workflow) : gmap string nat :=
  indices_from 0 (steps wf) ∅.

(** [steps[i + 1].id if i < len(steps) - 1 else None] *)
Definition next_step_id (wf : workflow) (i : nat) : pyobj :=
  if decide (i < length (steps wf) - 1) then id <$> (steps wf !! (i + 1))
  else None.

(** [steps[:-1]] *)
Definition non_finalize_steps (wf : workflow) : list Step :=
  removelast (steps wf).

(** ** The HelloFlow instance *)

Definition hello_steps : list Step :=
  [ mkStep "step_01" "name" "Your Name" true None;
    mkStep "step_02" "greeting" "Hello Message" false
           (Some (λ name, VStr ("Hello " +:+ py_str name)));
    mkStep "finalize" "finalized" "Finalize" false None ].

Definition HelloFlow : workflow :=
  {| app_name := "hello";
     steps := hello_steps;
     PRESERVE_REFILL := true;
     validate_step := λ _ _, (true, "");
     process_step := λ _ v, v |}.

(** ** Views returned to the caller *)

Inductive trigger : Type :=
| Load
| StepComplete (prev : string).

(** [Div(id=step.id, hx_get=..., hx_trigger=..., hx_swap="outerHTML")] *)
Record placeholder : Type := Placeholder {
  ph_id : string;
  ph_get : string;
  ph_trigger : trigger
}.

Inductive view : Type :=
| ErrorP (msg : string)
  (* [P(msg, style="color: red;")] *)
| Container (ps : list placeholder)
  (* [Div( *placeholders, id=f"{app_name}-container")] *)
| PipelineFinalized
  (* handle_step, finalize step, locked: offers Unfinalize *)
| FinalizePipeline (step_id : string)
  (* handle_step, finalize step, unlocked: offers Finalize *)
| Locked (label : string) (user_val : value) (next : pyobj)
  (* the read-only card of a step of a finalized pipeline *)
| Completed (step_id : string) (message : string) (next : pyobj)
  (* [pip.revert_control(...)] followed by the loader of the next step *)
| InputForm (step_id : string) (display_value : value) (next : pyobj)
  (* the card with the input form of a step *)
| AllCardsComplete
| ReadyToFinalize
| NothingToFinalize
| Rebuilt (app : string) (step_ids : list string).
  (* [pip.rebuild(app_name, steps)] *)

Inductive http_method : Type := GET | POST.

(** ** The [Pipulate] helper object and the session store *)

Definition set_store (f : gmap pyobj (gmap string entry) →
                          gmap pyobj (gmap string entry)) (w : world) : world :=
  World (f (store w)) (db w) (notices w).

(** Modelled from the spec: [Pipulate.read_state] is not among the sources.
    It returns the stored document, and the empty document if none exists;
    it never fails on a missing id. *)
Definition read_state (pipeline_id : pyobj) : M (gmap string entry) :=
  λ w, (Ok (default ∅ (store w !! pipeline_id)), w).

(** Modelled from the spec: [Pipulate.write_state] is not among the
    sources.  It fully replaces the stored document. *)
Definition write_state (pipeline_id : pyobj) (state : gmap string entry)
  : M unit :=
  λ w, (Ok (), set_store (insert pipeline_id state) w).

(** Modelled from the spec: [Pipulate.get_step_data] is not among the
    sources.  A convenience read of one step's entry, with a default. *)
Definition get_step_data (pipeline_id : pyobj) (step_id : string)
    (dflt : entry) : M entry :=
  let* state := read_state pipeline_id in
  ret (default dflt (state !! step_id)).

(** Deleting the entries of a list of steps from a document. *)
Definition clear_entries (l : list Step) (state : gmap string entry)
  : gmap string entry :=
  foldr (λ s acc, delete (id s) acc) state l.

(** Position of a step id in the ordered step list. *)
Definition step_position (step_id : string) (l : list Step) : option nat :=
  fst <$> list_find (λ s, id s = step_id) l.

(** Modelled from the spec: [Pipulate.clear_steps_from] is not among the
    sources.  Both callers pass the step that is submitted or reverted to;
    revert "clears this step and everything downstream (same total-clear
    rule)" and does so through this call alone, so the helper removes the
    entry of the named step and of every later step, without condition.
    An unknown step id causes no state mutation. *)
Definition clear_steps_from (pipeline_id : pyobj) (step_id : string)
    (l : list Step) : M unit :=
  let* state := read_state pipeline_id in
  match step_position step_id l with
  | None => ret ()
  | Some i => write_state pipeline_id (clear_entries (drop i l) state)
  end.

(** Modelled from the spec: [Pipulate.simulated_stream] is not among the
    sources.  A fire-and-forget notice on the side channel. *)
Definition simulated_stream (n : notice) : M unit :=
  λ w, (Ok (), World (store w) (db w) (notices w ++ [n])).

(** Modelled from the spec: [Pipulate.initialize_if_missing] is not among
    the sources.  It loads the record, or creates it with the empty state on
    an unseen id; it reports no error. *)
Definition initialize_if_missing (pipeline_id : pyobj)
  : M (gmap string entry * option view) :=
  λ w, match store w !! pipeline_id with
       | Some state => (Ok (state, None), w)
       | None => (Ok (∅, None), set_store (insert pipeline_id ∅) w)
       end.

(** Modelled from the spec: the session store [db] (a [DictLikeDB]) is not
    among the sources.  It behaves as a Python dictionary: [db.get(k, d)]
    gives [d] for an absent key, [db[k]] raises [KeyError] for one. *)
Definition db_get (k : string) (dflt : pyobj) : M pyobj :=
  λ w, (Ok (default dflt (db w !! k)), w).

Definition db_getitem (k : string) : M pyobj :=
  λ w, match db w !! k with
       | Some v => (Ok v, w)
       | None => (Raise (KeyError k), w)
       end.

Definition db_setitem (k : string) (v : pyobj) : M unit :=
  λ w, (Ok (), World (store w) (<[k := v]> (db w)) (notices w)).

(** ** HelloFlow: the handlers *)

Section Handlers.

Variable wf : workflow.

(** [self.steps_indices[step_id]], then [steps[step_index]] *)
Definition lookup_step (step_id : string) : M (nat * Step) :=
  let* step_index := or_raise (steps_indices wf !! step_id) (KeyError step_id) in
  let* step := or_raise (steps wf !! step_index) IndexError in
  ret (step_index, step).

Fixpoint placeholders_from (prev : option Step) (l : list Step)
  : list placeholder :=
  match l with
  | [] => []
  | step :: l' =>
      let trigger := match prev with
                     | None => Load
                     | Some p => StepComplete (id p)
                     end in
      Placeholder (id step) ("/" +:+ app_name wf +:+ "/" +:+ id step) trigger
        :: placeholders_from (Some step) l'
  end.

Definition generate_step_placeholders : list placeholder :=
  placeholders_from None (steps wf).

Definition get_suggestion (step_id : string) : M value :=
  match list_find (λ s, id s = step_id) (steps wf) with
  | None => ret (VStr "")
  | Some (_, step) =>
      match transform step with
      | None => ret (VStr "")
      | Some f =>
          let* i := or_raise (steps_indices wf !! step_id) (KeyError step_id) in
          match i with
          | 0 => ret (VStr "")
          | S prev_index =>
              let* prev := or_raise (steps wf !! prev_index) IndexError in
              let* pipeline_id := db_getitem "pipeline_id" in
              let* prev_data := get_step_data pipeline_id (id prev) (Data ∅) in
              let* prev_word := entry_get prev_data "name" (VStr "") in
              ret (if truthy prev_word then f prev_word else VStr "")
          end
      end
  end.

Definition handle_revert (form : gmap string string) : M view :=
  let step_id := form !! "step_id" in
  let* pipeline_id := db_get "pipeline_id" (Some "unknown") in
  match step_id with
  | None => ret (ErrorP "Error: No step specified")
  | Some sid =>
      if bool_decide (sid = "") then ret (ErrorP "Error: No step specified")
      else
        clear_steps_from pipeline_id sid (steps wf) ;;;
        let* state := read_state pipeline_id in
        write_state pipeline_id (<["_revert_target" := Scalar sid]> state) ;;;
        simulated_stream (StateMessage pipeline_id) ;;;
        ret (Container generate_step_placeholders)
  end.

(** [state.get("_revert_target") != step_id] *)
Definition not_revert_target (state : gmap string entry) (step_id : string)
  : bool :=
  match state !! "_revert_target" with
  | Some (Scalar s) => bool_decide (s ≠ step_id)
  | _ => true
  end.

Definition handle_step (step_id : string) : M view :=
  let* '(step_index, step) := lookup_step step_id in
  let next := next_step_id wf step_index in
  let* pipeline_id := db_get "pipeline_id" (Some "unknown") in
  let* state := read_state pipeline_id in
  let* step_data := get_step_data pipeline_id step_id (Data ∅) in
  let* user_val := entry_get step_data (done step) (VStr "") in
  if bool_decide (done step = "finalized") then
    let* finalize_data := get_step_data pipeline_id "finalize" (Data ∅) in
    if contains "finalized" finalize_data then ret PipelineFinalized
    else ret (FinalizePipeline step_id)
  else
    let* finalize_data := get_step_data pipeline_id "finalize" (Data ∅) in
    if contains "finalized" finalize_data then
      ret (Locked (show step) user_val next)
    else if truthy user_val && not_revert_target state step_id then
      ret (Completed step_id (show step +:+ ": " +:+ py_str user_val) next)
    else
      let* display_value :=
        (if refill step && truthy user_val && PRESERVE_REFILL wf
         then ret user_val else get_suggestion step_id) in
      simulated_stream (StepInputMessage step_id) ;;;
      ret (InputForm (id step) display_value next).

Definition handle_step_submit (step_id : string) (form : gmap string string)
  : M view :=
  let* '(step_index, step) := lookup_step step_id in
  let* pipeline_id := db_get "pipeline_id" (Some "unknown") in
  if bool_decide (done step = "finalized") then
    let* state := read_state pipeline_id in
    write_state pipeline_id
      (<[step_id := Data {[done step := VTrue]}]> state) ;;;
    simulated_stream (StateMessage pipeline_id) ;;;
    ret (Container generate_step_placeholders)
  else
    let user_val := default "" (form !! done step) in
    let '(is_valid, error_msg) := validate_step wf step_id user_val in
    if negb is_valid then ret (ErrorP error_msg)
    else
      let processed_val := process_step wf step_id user_val in
      let next := next_step_id wf step_index in
      clear_steps_from pipeline_id step_id (steps wf) ;;;
      let* state := read_state pipeline_id in
      write_state pipeline_id
        (delete "_revert_target"
           (<[step_id := Data {[done step := VStr processed_val]}]> state)) ;;;
      simulated_stream (Text (show step +:+ ": " +:+ processed_val)) ;;;
      (if bool_decide (next = Some "finalize") then
         simulated_stream (Text "All steps complete! Please press the Finalize button below to save your data.")
       else ret ()) ;;;
      ret (Completed step_id (show step +:+ ": " +:+ processed_val) next).

Definition step_01 : M view := handle_step "step_01".
Definition step_01_submit (form : gmap string string) : M view :=
  handle_step_submit "step_01" form.
Definition step_02 : M view := handle_step "step_02".
Definition step_02_submit (form : gmap string string) : M view :=
  handle_step_submit "step_02" form.

(** [all(pip.get_step_data(pipeline_id, step.id, {}).get(step.done)
         for step in non_finalize_steps)]: stops at the first step whose
    value is false; an absent field gives [None], which is false like the
    empty string. *)
Fixpoint all_steps_complete (pipeline_id : pyobj) (l : list Step) : M bool :=
  match l with
  | [] => ret true
  | step :: l' =>
      let* step_data := get_step_data pipeline_id (id step) (Data ∅) in
      let* v := entry_get step_data (done step) (VStr "") in
      if truthy v then all_steps_complete pipeline_id l' else ret false
  end.

(** [now] is the reading of [datetime.now().isoformat()]. *)
Definition finalize (method : http_method) (now : string) : M view :=
  let* pipeline_id := db_get "pipeline_id" (Some "unknown") in
  let* finalize_step := or_raise (last (steps wf)) IndexError in
  let* finalize_data := get_step_data pipeline_id (id finalize_step) (Data ∅) in
  match method with
  | GET =>
      if contains (done finalize_step) finalize_data then ret AllCardsComplete
      else
        let* complete := all_steps_complete pipeline_id (non_finalize_steps wf) in
        if complete then ret ReadyToFinalize else ret NothingToFinalize
  | POST =>
      let* state := read_state pipeline_id in
      write_state pipeline_id
        (<["updated" := Scalar now]>
           (<["finalize" := Data {["finalized" := VTrue]}]> state)) ;;;
      simulated_stream (Text "Workflow successfully finalized! Your data has been saved and locked.") ;;;
      ret (Container generate_step_placeholders)
  end.

Definition unfinalize : M view :=
  let* pipeline_id := db_get "pipeline_id" (Some "unknown") in
  let* state := read_state pipeline_id in
  write_state pipeline_id (delete "finalize" state) ;;;
  simulated_stream (Text "Workflow unfinalized! You can now revert to any step and make changes.") ;;;
  ret (Container generate_step_placeholders).

Definition jump_to_step (form : gmap string string) : M view :=
  let step_id := form !! "step_id" in
  db_setitem "step_id" step_id ;;;
  ret (Rebuilt (app_name wf) (id <$> steps wf)).

(** The loop of [init] over [steps[:-1]]. *)
Definition init_all_steps_complete (state : gmap string entry) : bool :=
  forallb (λ step, match state !! id step with
                   | None => false
                   | Some e => contains (done step) e
                   end) (non_finalize_steps wf).

Definition init_is_finalized (state : gmap string entry) : bool :=
  match state !! "finalize" with
  | None => false
  | Some e => contains "finalized" e
  end.

Definition init (form : gmap string string) : M view :=
  let pipeline_id := default "untitled" (form !! "pipeline_id") in
  db_setitem "pipeline_id" (Some pipeline_id) ;;;
  let* '(state, error) := initialize_if_missing (Some pipeline_id) in
  match error with
  | Some e => ret e
  | None =>
      simulated_stream (Text ("Workflow ID: " +:+ pipeline_id +:+ ". You can use this ID to return to this workflow later.")) ;;;
      (if init_all_steps_complete state then
         if init_is_finalized state then
           simulated_stream (Text "Workflow is complete and finalized. Use Unfinalize to make changes.")
         else
           simulated_stream (Text "Workflow is complete but not finalized. Press Finalize to lock your data.")
       else
         if negb (existsb (λ step, bool_decide (is_Some (state !! id step))) (steps wf))
         then simulated_stream (Text "Please complete each step in sequence. Your progress will be saved automatically.")
         else ret ()) ;;;
      ret (Container generate_step_placeholders)
  end.

End Handlers.

(** * Vocabulary of the properties *)

(** ** Reading the world *)

(** The pipeline id a handler works on: [db.get("pipeline_id", "unknown")]. *)
Definition pipeline_id_of (w : world) : pyobj :=
  default (Some "unknown") (db w !! "pipeline_id").

(** The document stored for a pipeline ([read_state] without the monad). *)
Definition state_of (pipeline_id : pyobj) (w : world) : gmap string entry :=
  default ∅ (store w !! pipeline_id).

(** The document of the session's pipeline. *)
Definition current_state (w : world) : gmap string entry :=
  state_of (pipeline_id_of w) w.

(** The value a step holds under its own field: [""] when the step or the
    field is absent, nothing when the entry is not a dictionary. *)
Definition step_value (state : gmap string entry) (step : Step)
  : option value :=
  match state !! id step with
  | None => Some (VStr "")
  | Some (Data d) => Some (default (VStr "") (d !! done step))
  | Some (Scalar _) => None
  end.

(** A step has data: its entry is a dictionary with a true value under the
    step's field. *)
Definition has_data (state : gmap string entry) (step : Step) : bool :=
  match state !! id step with
  | Some (Data d) => truthy (default (VStr "") (d !! done step))
  | _ => false
  end.

(** The lock: [ "finalized" in get_step_data(pipeline_id, "finalize", {}) ]. *)
Definition is_finalized (state : gmap string entry) : bool :=
  contains "finalized" (default (Data ∅) (state !! "finalize")).

(** The document written by the submission of a regular step: downstream
    entries cleared, the processed value stored, the revert marker removed. *)
Definition submitted_state (wf : workflow) (i : nat) (step_id field : string)
    (processed : string) (state : gmap string entry) : gmap string entry :=
  delete "_revert_target"
    (<[step_id := Data {[field := VStr processed]}]>
       (clear_entries (drop i (steps wf)) state)).

(** The world after one more notice. *)
Definition add_notice (n : notice) (w : world) : world :=
  World (store w) (db w) (notices w ++ [n]).

(** The session with the pipeline id set to the default the handlers
    read when it is missing. *)
Definition as_unknown (w : world) : world :=
  World (store w) (<["pipeline_id" := Some "unknown"]> (db w)) (notices w).

(** Two worlds that differ at most in the session store. *)
Definition same_data (w1 w2 : world) : Prop :=
  store w1 = store w2 ∧ notices w1 = notices w2.

(** *** The suggestion, in the words of the specification *)

(** The value stored for a step under its own field, [""] when there is
    none. *)
Definition stored_value (state : gmap string entry) (step : Step) : value :=
  match state !! id step with
  | Some (Data d) => default (VStr "") (d !! done step)
  | _ => VStr ""
  end.

(** "The stored value if refill is enabled for this step and the global
    refill-preservation policy is on; otherwise the output of this step's
    transform applied to the previous step's stored value (empty string if
    no transform or no previous value)." *)
Definition spec_suggestion (wf : workflow) (state : gmap string entry)
    (i : nat) (step : Step) : value :=
  if refill step && PRESERVE_REFILL wf then stored_value state step
  else
    match transform step, i with
    | Some f, S prev_index =>
        match steps wf !! prev_index with
        | Some prev =>
            let prev_value := stored_value state prev in
            if truthy prev_value then f prev_value else VStr ""
        | None => VStr ""
        end
    | _, _ => VStr ""
    end.

(** *** Sample sessions *)

(** A fresh session on pipeline ["p"], nothing stored yet. *)
Definition hello_new : world :=
  World ∅ {["pipeline_id" := Some "p"]} [].

(** Both steps submitted, then a revert to [step_01] under way. *)
Definition hello_reverting : world :=
  World
    {[Some "p" :=
        {["step_01" := Data {["name" := VStr "Ada"]};
          "step_02" := Data {["greeting" := VStr "Hello Ada"]};
          "_revert_target" := Scalar "step_01"]}]}
    {["pipeline_id" := Some "p"]} [].

(** [step_01] submitted, [step_02] still to come. *)
Definition hello_named : world :=
  World
    {[Some "p" := {["step_01" := Data {["name" := VStr "Ada"]}]}]}
    {["pipeline_id" := Some "p"]} [].

(** Both steps submitted. *)
Definition hello_complete : world :=
  World
    {[Some "p" :=
        {["step_01" := Data {["name" := VStr "Ada"]};
          "step_02" := Data {["greeting" := VStr "Hello Ada"]}]}]}
    {["pipeline_id" := Some "p"]} [].

(** Both steps submitted and the pipeline finalized. *)
Definition hello_finalized : world :=
  World
    {[Some "p" :=
        {["step_01" := Data {["name" := VStr "Ada"]};
          "step_02" := Data {["greeting" := VStr "Hello Ada"]};
          "finalize" := Data {["finalized" := VTrue]}]}]}
    {["pipeline_id" := Some "p"]} [].

(** A session that never went through [init]: no pipeline id. *)
Definition hello_no_session : world := World ∅ ∅ [].

(** Which view a handler returned. *)
Definition is_completed (r : res view) : bool :=
  match r with
  | Ok (Completed _ _ _) => true
  | _ => false
  end.

Definition is_input_form (r : res view) : bool :=
  match r with
  | Ok (InputForm _ _ _) => true
  | _ => false
  end.

Definition is_error (r : res view) : bool :=
  match r with
  | Ok (ErrorP _) => true
  | _ => false
  end.

(** Two runs of a handler that return the same result and leave the same
    data. *)
Definition agree (r1 r2 : res view * world) : Prop :=
  r1.1 = r2.1 ∧ same_data r1.2 r2.2.

(** Every regular step has data. *)
Definition all_complete (wf : workflow) (state : gmap string entry) : bool :=
  forallb (has_data state) (non_finalize_steps wf).

(** *** Vocabulary of the further properties *)

(** The trigger of a placeholder, given the step before it. *)
Definition trigger_after (prev : option Step) : trigger :=
  match prev with
  | None => Load
  | Some p => StepComplete (id p)
  end.

(** A workflow that overrides [validate_step], as the template invites:
    HelloFlow, refusing an empty value. *)
Definition StrictFlow : workflow :=
  {| app_name := "strict";
     steps := hello_steps;
     PRESERVE_REFILL := true;
     validate_step := λ _ v, if bool_decide (v = "") then (false, "Required")
                             else (true, "");
     process_step := λ _ v, v |}.

(** A session on pipeline ["p"] beside a finalized pipeline ["q"]. *)
Definition hello_two : world :=
  World
    {[Some "p" := {["step_01" := Data {["name" := VStr "Ada"]}]};
      Some "q" :=
        {["step_01" := Data {["name" := VStr "Bob"]};
          "step_02" := Data {["greeting" := VStr "Hello Bob"]};
          "finalize" := Data {["finalized" := VTrue]}]}]}
    {["pipeline_id" := Some "p"]} [].

(** Both steps submitted with an empty value. *)
Definition hello_blank : world :=
  World
    {[Some "p" :=
        {["step_01" := Data {["name" := VStr ""]};
          "step_02" := Data {["greeting" := VStr ""]}]}]}
    {["pipeline_id" := Some "p"]} [].

(** Unfolding the monad and the store primitives. *)
Ltac run :=
  cbv beta iota delta
    [bind ret raise or_raise read_state write_state get_step_data
     simulated_stream db_get db_getitem db_setitem set_store entry_get
     store db notices].

(** * Properties *)

(** ** The helpers *)

Lemma clear_entries_cleared (l : list Step) (state : gmap string entry) k :
  k ∈ id <$> l → clear_entries l state !! k = None.
Proof.
  induction l as [|s l IH]; simpl.
  - intros H. by apply elem_of_nil in H.
  - intros [->|H]%elem_of_cons.
    + apply lookup_delete_eq.
    + destruct (decide (id s = k)) as [->|Hne].
      * apply lookup_delete_eq.
      * rewrite lookup_delete_ne by exact Hne. by apply IH.
Qed.

Lemma clear_entries_other (l : list Step) (state : gmap string entry) k :
  k ∉ id <$> l → clear_entries l state !! k = state !! k.
Proof.
  induction l as [|s l IH]; simpl; [reflexivity|].
  intros H. apply not_elem_of_cons in H as [Hne Hl].
  rewrite lookup_delete_ne by congruence. by apply IH.
Qed.

Lemma clear_entries_insert (l : list Step) (state : gmap string entry) k e :
  k ∉ id <$> l →
  clear_entries l (<[k := e]> state) = <[k := e]> (clear_entries l state).
Proof.
  intros Hk. apply map_eq. intros j.
  destruct (decide (j ∈ id <$> l)) as [Hj|Hj].
  - rewrite clear_entries_cleared by exact Hj.
    rewrite lookup_insert_ne by (intros ->; contradiction).
    by rewrite clear_entries_cleared.
  - rewrite clear_entries_other by exact Hj.
    destruct (decide (k = j)) as [->|Hne].
    + by rewrite !lookup_insert_eq.
    + rewrite !lookup_insert_ne by exact Hne.
      by rewrite clear_entries_other.
Qed.

Lemma clear_entries_idemp (l : list Step) (state : gmap string entry) :
  clear_entries l (clear_entries l state) = clear_entries l state.
Proof.
  apply map_eq. intros j.
  destruct (decide (j ∈ id <$> l)) as [Hj|Hj].
  - by rewrite !clear_entries_cleared.
  - by rewrite !clear_entries_other.
Qed.

Lemma step_position_Some k (l : list Step) i :
  step_position k l = Some i → ∃ s, l !! i = Some s ∧ id s = k.
Proof.
  unfold step_position. intros H.
  destruct (list_find _ l) as [[j s]|] eqn:E; simplify_eq/=.
  apply list_find_Some in E as (? & ? & _). eauto.
Qed.

Lemma step_position_NoDup (l : list Step) i s :
  NoDup (id <$> l) → l !! i = Some s → step_position (id s) l = Some i.
Proof.
  intros Hnd Hi. unfold step_position.
  destruct (list_find (λ s', id s' = id s) l) as [[j s']|] eqn:E.
  - apply list_find_Some in E as (Hj & Hid & _). simpl. f_equal.
    eapply NoDup_lookup; [exact Hnd| |].
    + by rewrite list_lookup_fmap, Hj.
    + by rewrite list_lookup_fmap, Hi, Hid.
  - apply list_find_None in E. rewrite Forall_forall in E.
    exfalso. eapply E; [|reflexivity].
    apply list_elem_of_lookup. eauto.
Qed.

Lemma indices_from_Some (l : list Step) n acc k i :
  indices_from n l acc !! k = Some i →
  (∃ s, l !! (i - n) = Some s ∧ id s = k ∧ n ≤ i) ∨ acc !! k = Some i.
Proof.
  revert n acc. induction l as [|s l IH]; intros n acc; simpl.
  - by right.
  - intros H. apply IH in H as [(s' & Hs' & Hid & Hle)|H].
    + left. exists s'. replace (i - n) with (S (i - S n)) by lia.
      split_and!; [done|done|lia].
    + destruct (decide (id s = k)) as [Heq|Hne].
      * subst k. rewrite lookup_insert_eq in H. simplify_eq.
        left. exists s. rewrite Nat.sub_diag. by split_and!.
      * rewrite lookup_insert_ne in H by exact Hne. by right.
Qed.

Lemma steps_indices_Some wf k i :
  steps_indices wf !! k = Some i → ∃ s, steps wf !! i = Some s ∧ id s = k.
Proof.
  unfold steps_indices. intros H.
  apply indices_from_Some in H as [(s & Hs & Hid & _)|H].
  - rewrite Nat.sub_0_r in Hs. eauto.
  - by rewrite lookup_empty in H.
Qed.

Lemma indices_from_fresh (l : list Step) n acc k :
  k ∉ id <$> l → indices_from n l acc !! k = acc !! k.
Proof.
  revert n acc. induction l as [|s l IH]; intros n acc Hk; [done|].
  simpl in *. apply not_elem_of_cons in Hk as [Hne Hk].
  rewrite IH by done. by rewrite lookup_insert_ne.
Qed.

Lemma indices_from_is_Some (l : list Step) n acc k :
  k ∈ id <$> l → is_Some (indices_from n l acc !! k).
Proof.
  revert n acc. induction l as [|s l IH]; intros n acc Hk; simpl in *.
  - by apply elem_of_nil in Hk.
  - destruct (decide (k ∈ id <$> l)) as [Hin|Hout]; [by apply IH|].
    apply elem_of_cons in Hk as [->|Hin]; [|done].
    rewrite indices_from_fresh by done. rewrite lookup_insert_eq. by eexists.
Qed.

Lemma steps_indices_is_Some wf k :
  k ∈ id <$> steps wf → is_Some (steps_indices wf !! k).
Proof. apply indices_from_is_Some. Qed.

Lemma placeholders_from_ids wf prev (l : list Step) :
  ph_id <$> placeholders_from wf prev l = id <$> l.
Proof.
  revert prev. induction l as [|s l IH]; intros prev; simpl; [done|].
  by rewrite IH.
Qed.

(** The placeholder sequence names every step, in order. *)
Lemma generate_step_placeholders_ids wf :
  ph_id <$> generate_step_placeholders wf = id <$> steps wf.
Proof. apply placeholders_from_ids. Qed.

Lemma state_of_insert pid (state : gmap string entry) st d ns :
  state_of pid (World (<[pid := state]> st) d ns) = state.
Proof. unfold state_of. simpl. by rewrite lookup_insert_eq. Qed.

Lemma lookup_drop_ge (l : list Step) i j s :
  i ≤ j → l !! j = Some s → id s ∈ id <$> drop i l.
Proof.
  intros Hle Hj. apply list_elem_of_fmap. exists s. split; [done|].
  apply list_elem_of_lookup. exists (j - i).
  rewrite lookup_drop. by replace (i + (j - i)) with j by lia.
Qed.

Lemma current_state_insert w (state : gmap string entry) ns :
  current_state (World (<[pipeline_id_of w := state]> (store w)) (db w) ns)
  = state.
Proof.
  unfold current_state, pipeline_id_of at 1. cbn [db].
  fold (pipeline_id_of w). apply state_of_insert.
Qed.

(** ** Step submission *)

(** The whole effect of a valid submission to a regular step. *)
Lemma handle_step_submit_regular wf step_id form w i p step :
  steps_indices wf !! step_id = Some i →
  steps wf !! i = Some step →
  done step ≠ "finalized" →
  (validate_step wf step_id (default "" (form !! done step))).1 = true →
  step_position step_id (steps wf) = Some p →
  let processed :=
    process_step wf step_id (default "" (form !! done step)) in
  handle_step_submit wf step_id form w
  = (Ok (Completed step_id (show step +:+ ": " +:+ processed)
           (next_step_id wf i)),
     World
       (<[pipeline_id_of w :=
            submitted_state wf p step_id (done step) processed
              (current_state w)]> (store w))
       (db w)
       (notices w ++ [Text (show step +:+ ": " +:+ processed)] ++
        if bool_decide (next_step_id wf i = Some "finalize")
        then [Text "All steps complete! Please press the Finalize button below to save your data."]
        else [])).
Proof.
  intros Hidx Hstep Hreg Hvalid Hpos processed.
  destruct w as [st d ns].
  unfold current_state, pipeline_id_of, state_of, submitted_state.
  unfold handle_step_submit, lookup_step, clear_steps_from. run.
  rewrite Hidx, Hstep, Hpos.
  rewrite bool_decide_eq_false_2 by exact Hreg.
  destruct (validate_step wf step_id _) as [is_valid error_msg] eqn:Ev.
  simpl in Hvalid. subst is_valid. cbv beta iota delta [negb].
  destruct (bool_decide (next_step_id wf i = Some "finalize"));
    cbv beta iota delta [fst snd store db notices];
    rewrite lookup_insert_eq, insert_insert_eq; simpl;
    rewrite <- ?app_assoc; try rewrite app_nil_r; reflexivity.
Qed.

(** C1: after a successful submission of a regular step, the stored state
    holds the processed value under that step, holds no entry for any later
    step, and holds no [_revert_target] marker. *)
Theorem submit_step_stores wf step_id form w i step :
  steps_indices wf !! step_id = Some i →
  steps wf !! i = Some step →
  done step ≠ "finalized" →
  (validate_step wf step_id (default "" (form !! done step))).1 = true →
  NoDup (id <$> steps wf) →
  step_id ≠ "_revert_target" →
  let processed :=
    process_step wf step_id (default "" (form !! done step)) in
  let w' := (handle_step_submit wf step_id form w).2 in
  (handle_step_submit wf step_id form w).1
    = Ok (Completed step_id (show step +:+ ": " +:+ processed)
            (next_step_id wf i)) ∧
  current_state w' !! step_id
    = Some (Data {[done step := VStr processed]}) ∧
  (∀ j s, i < j → steps wf !! j = Some s → current_state w' !! id s = None) ∧
  current_state w' !! "_revert_target" = None.
Proof.
  intros Hidx Hstep Hreg Hvalid Hnd Hrt processed.
  destruct (steps_indices_Some _ _ _ Hidx) as (s0 & Hs0 & Hid).
  assert (s0 = step) by congruence. subst s0.
  pose proof (step_position_NoDup _ _ _ Hnd Hstep) as Hpos.
  rewrite Hid in Hpos.
  rewrite (handle_step_submit_regular wf step_id form w i i step) by done.
  cbv zeta. cbn [fst snd]. rewrite current_state_insert.
  unfold submitted_state. split_and!.
  - reflexivity.
  - rewrite lookup_delete_ne by congruence. apply lookup_insert_eq.
  - intros j s Hlt Hj.
    destruct (decide ("_revert_target" = id s)) as [<-|Hne].
    { apply lookup_delete_eq. }
    rewrite lookup_delete_ne by exact Hne.
    rewrite lookup_insert_ne.
    + apply clear_entries_cleared. eapply lookup_drop_ge; [|exact Hj]. lia.
    + intros Heq. assert (i = j); [|lia].
      eapply NoDup_lookup; [exact Hnd| |].
      * by rewrite list_lookup_fmap, Hstep; simpl; rewrite Hid.
      * by rewrite list_lookup_fmap, Hj; simpl; rewrite Heq.
  - apply lookup_delete_eq.
Qed.

(** ** Revert *)

(** The whole effect of a revert to a step of the workflow. *)
Lemma handle_revert_known wf form w sid p :
  form !! "step_id" = Some sid →
  sid ≠ "" →
  step_position sid (steps wf) = Some p →
  handle_revert wf form w
  = (Ok (Container (generate_step_placeholders wf)),
     World
       (<[pipeline_id_of w :=
            <["_revert_target" := Scalar sid]>
              (clear_entries (drop p (steps wf)) (current_state w))]>
          (store w))
       (db w)
       (notices w ++ [StateMessage (pipeline_id_of w)])).
Proof.
  intros Hform Hne Hpos. destruct w as [st d ns].
  unfold current_state, pipeline_id_of, state_of.
  unfold handle_revert, clear_steps_from. run.
  rewrite Hform. rewrite bool_decide_eq_false_2 by exact Hne.
  rewrite Hpos. cbv beta iota delta [fst snd store db notices].
  by rewrite lookup_insert_eq, insert_insert_eq.
Qed.

(** C5: a revert to a step of the workflow removes the entry of that step
    and of every later step, records the step as [_revert_target], answers
    with the placeholders of the whole step sequence, and changes nothing
    in the stored data when it is repeated. *)
Theorem revert_clears_from_step wf form w k p :
  form !! "step_id" = Some k →
  k ≠ "" →
  step_position k (steps wf) = Some p →
  Forall (λ s, id s ≠ "_revert_target") (steps wf) →
  let r := handle_revert wf form w in
  r.1 = Ok (Container (generate_step_placeholders wf)) ∧
  ph_id <$> generate_step_placeholders wf = id <$> steps wf ∧
  (∀ j s, p ≤ j → steps wf !! j = Some s →
          current_state r.2 !! id s = None) ∧
  current_state r.2 !! "_revert_target" = Some (Scalar k) ∧
  store (handle_revert wf form r.2).2 = store r.2.
Proof.
  intros Hform Hne Hpos Hres r. subst r.
  assert (Hfresh : "_revert_target" ∉ id <$> drop p (steps wf)).
  { intros (s & Heq & Hs)%list_elem_of_fmap.
    apply list_elem_of_lookup in Hs as [j Hj]. rewrite lookup_drop in Hj.
    rewrite Forall_forall in Hres. eapply Hres; [|by symmetry].
    apply list_elem_of_lookup. eauto. }
  rewrite (handle_revert_known wf form w k p) by done.
  cbn [fst snd]. split_and!.
  - reflexivity.
  - apply generate_step_placeholders_ids.
  - intros j s Hle Hj. rewrite current_state_insert.
    rewrite lookup_insert_ne.
    + apply clear_entries_cleared. by eapply lookup_drop_ge.
    + intros Heq. apply Hfresh. rewrite Heq. by eapply lookup_drop_ge.
  - rewrite current_state_insert. apply lookup_insert_eq.
  - rewrite (handle_revert_known wf form _ k p) by done.
    cbn [snd store]. rewrite current_state_insert.
    unfold pipeline_id_of. cbn [db]. rewrite insert_insert_eq. f_equal.
    rewrite clear_entries_insert by exact Hfresh.
    by rewrite clear_entries_idemp, insert_insert_eq.
Qed.

(** ** Finalize and unfinalize *)

(** The POST of [finalize] sets the lock and the timestamp, whatever the
    steps hold. *)
Lemma finalize_POST wf now w step :
  last (steps wf) = Some step →
  finalize wf POST now w
  = (Ok (Container (generate_step_placeholders wf)),
     World
       (<[pipeline_id_of w :=
            <["updated" := Scalar now]>
              (<["finalize" := Data {["finalized" := VTrue]}]>
                 (current_state w))]> (store w))
       (db w)
       (notices w ++ [Text "Workflow successfully finalized! Your data has been saved and locked."])).
Proof.
  intros Hlast. destruct w as [st d ns].
  unfold current_state, pipeline_id_of, state_of, finalize. run.
  by rewrite Hlast.
Qed.

Lemma unfinalize_eq wf w :
  unfinalize wf w
  = (Ok (Container (generate_step_placeholders wf)),
     World
       (<[pipeline_id_of w := delete "finalize" (current_state w)]> (store w))
       (db w)
       (notices w ++ [Text "Workflow unfinalized! You can now revert to any step and make changes."])).
Proof. by destruct w. Qed.

Lemma non_finalize_steps_last wf s :
  s ∈ non_finalize_steps wf → is_Some (last (steps wf)).
Proof.
  unfold non_finalize_steps. intros H. apply last_is_Some.
  intros E. rewrite E in H. simpl in H. by apply elem_of_nil in H.
Qed.

(** C4: finalize (the POST that sets the lock) followed by unfinalize
    leaves the entry of every regular step as it was before finalize;
    unfinalize itself removes the [finalize] entry and changes no other. *)
Theorem finalize_unfinalize_keeps_steps wf now w s :
  s ∈ non_finalize_steps wf →
  id s ≠ "finalize" →
  id s ≠ "updated" →
  let w1 := (finalize wf POST now w).2 in
  let w2 := (unfinalize wf w1).2 in
  (finalize wf POST now w).1 = Ok (Container (generate_step_placeholders wf)) ∧
  (unfinalize wf w1).1 = Ok (Container (generate_step_placeholders wf)) ∧
  current_state w2 !! id s = current_state w !! id s ∧
  current_state w2 !! "finalize" = None ∧
  (∀ k, k ≠ "finalize" → current_state w2 !! k = current_state w1 !! k).
Proof.
  intros Hs Hfin Hupd w1 w2.
  destruct (non_finalize_steps_last _ _ Hs) as [fs Hlast].
  subst w2 w1. rewrite (finalize_POST wf now w fs Hlast). cbn [fst snd].
  rewrite unfinalize_eq. cbn [fst snd].
  rewrite !current_state_insert. split_and!; try reflexivity.
  - rewrite lookup_delete_ne by congruence.
    by rewrite !lookup_insert_ne by congruence.
  - apply lookup_delete_eq.
  - intros k Hk. by rewrite lookup_delete_ne by congruence.
Qed.

(** C10: on a pipeline whose state holds no [finalize] entry, unfinalize
    returns normally and writes back the document it read; doing it again
    changes nothing in the store. *)
Theorem unfinalize_unlocked_noop wf w :
  current_state w !! "finalize" = None →
  (unfinalize wf w).1 = Ok (Container (generate_step_placeholders wf)) ∧
  store (unfinalize wf w).2
    = <[pipeline_id_of w := current_state w]> (store w) ∧
  current_state (unfinalize wf w).2 = current_state w ∧
  store (unfinalize wf (unfinalize wf w).2).2 = store (unfinalize wf w).2.
Proof.
  intros Hnone. rewrite !unfinalize_eq. cbn [fst snd store].
  rewrite current_state_insert, delete_id by exact Hnone.
  split_and!; try reflexivity.
  unfold pipeline_id_of at 1. cbn [db]. fold (pipeline_id_of w).
  rewrite insert_insert_eq. f_equal. by apply delete_id.
Qed.

(** C1, on HelloFlow: resubmitting [step_01] during a revert. *)
Lemma submit_step_stores_witness :
  let w' := (handle_step_submit HelloFlow "step_01" {["name" := "Grace"]}
               hello_reverting).2 in
  current_state w' !! "step_01" = Some (Data {["name" := VStr "Grace"]}) ∧
  current_state w' !! "step_02" = None ∧
  current_state w' !! "_revert_target" = None.
Proof.
  destruct (submit_step_stores HelloFlow "step_01" {["name" := "Grace"]}
              hello_reverting 0
              (mkStep "step_01" "name" "Your Name" true None))
    as (_ & H1 & H2 & H3).
  - vm_compute. reflexivity.
  - reflexivity.
  - discriminate.
  - reflexivity.
  - compute_done.
  - discriminate.
  - split_and!.
    + exact H1.
    + apply (H2 1 (mkStep "step_02" "greeting" "Hello Message" false
                     (Some (λ name, VStr ("Hello " +:+ py_str name))))).
      * lia.
      * reflexivity.
    + exact H3.
Defined.

(** C5, on HelloFlow: reverting a complete pipeline to [step_01]. *)
Lemma revert_clears_from_step_witness :
  let r := handle_revert HelloFlow {["step_id" := "step_01"]} hello_complete in
  current_state r.2 !! "step_01" = None ∧
  current_state r.2 !! "step_02" = None ∧
  current_state r.2 !! "_revert_target" = Some (Scalar "step_01") ∧
  store (handle_revert HelloFlow {["step_id" := "step_01"]} r.2).2
    = store r.2.
Proof.
  destruct (revert_clears_from_step HelloFlow {["step_id" := "step_01"]}
              hello_complete "step_01" 0)
    as (_ & _ & H1 & H2 & H3).
  - reflexivity.
  - discriminate.
  - reflexivity.
  - repeat constructor; discriminate.
  - split_and!.
    + apply (H1 0 (mkStep "step_01" "name" "Your Name" true None));
        [lia|reflexivity].
    + apply (H1 1 (mkStep "step_02" "greeting" "Hello Message" false
                     (Some (λ name, VStr ("Hello " +:+ py_str name)))));
        [lia|reflexivity].
    + exact H2.
    + exact H3.
Defined.

(** C4, on HelloFlow: [step_01] across finalize and unfinalize. *)
Lemma finalize_unfinalize_keeps_steps_witness :
  let w1 := (finalize HelloFlow POST "2025-01-01T00:00:00" hello_complete).2 in
  let w2 := (unfinalize HelloFlow w1).2 in
  current_state w2 !! "step_01" = current_state hello_complete !! "step_01" ∧
  current_state w2 !! "finalize" = None.
Proof.
  destruct (finalize_unfinalize_keeps_steps HelloFlow "2025-01-01T00:00:00"
              hello_complete (mkStep "step_01" "name" "Your Name" true None))
    as (_ & _ & H1 & H2 & _).
  - unfold non_finalize_steps. simpl. left.
  - discriminate.
  - discriminate.
  - split; [exact H1|exact H2].
Defined.

(** C10, on HelloFlow: unfinalize on a pipeline that was never locked. *)
Lemma unfinalize_unlocked_noop_witness :
  current_state (unfinalize HelloFlow hello_complete).2
  = current_state hello_complete.
Proof.
  destruct (unfinalize_unlocked_noop HelloFlow hello_complete)
    as (_ & _ & H & _).
  - reflexivity.
  - exact H.
Defined.

(** ** Rendering a step *)

(** Computing a suggestion changes nothing. *)
Lemma get_suggestion_world wf k w : (get_suggestion wf k w).2 = w.
Proof.
  destruct w as [st d ns]. unfold get_suggestion.
  destruct (list_find _ _) as [[j step]|]; [|reflexivity].
  destruct (transform step) as [f|]; [|reflexivity].
  run. destruct (steps_indices wf !! k) as [[|i]|]; try reflexivity.
  destruct (steps wf !! i) as [prev|]; [|reflexivity].
  destruct (d !! "pipeline_id") as [pid|]; [|reflexivity].
  by destruct (default (Data ∅) (default ∅ (st !! pid) !! id prev)).
Qed.

(** In a session that holds a pipeline id, over a document whose step
    entries are dictionaries, a suggestion is always computed. *)
Lemma get_suggestion_returns wf k w pid :
  db w !! "pipeline_id" = Some pid →
  Forall (λ s, is_Some (step_value (current_state w) s)) (steps wf) →
  ∃ dv, get_suggestion wf k w = (Ok dv, w).
Proof.
  intros Hdb Htyped. unfold get_suggestion.
  destruct (list_find _ _) as [[j step]|] eqn:E; [|by eexists].
  destruct (transform step) as [f|]; [|by eexists].
  apply list_find_Some in E as (Hj & Hid & _).
  assert (Hk : k ∈ id <$> steps wf).
  { rewrite <- Hid. apply list_elem_of_fmap. exists step. split; [done|].
    apply list_elem_of_lookup. eauto. }
  destruct (steps_indices_is_Some wf k Hk) as [i Hidx].
  destruct i as [|prev_index].
  { destruct w. run. rewrite Hidx. by eexists. }
  destruct (steps_indices_Some _ _ _ Hidx) as (s1 & Hs1 & _).
  assert (Hlt : prev_index < length (steps wf)).
  { apply lookup_lt_Some in Hs1. lia. }
  destruct (lookup_lt_is_Some_2 _ _ Hlt) as [prev Hprev].
  rewrite Forall_forall in Htyped.
  destruct (Htyped prev) as [pv Hpv].
  { apply list_elem_of_lookup. eauto. }
  revert Hdb Hpv. destruct w as [st d ns].
  unfold step_value, current_state, pipeline_id_of, state_of.
  cbn [store db notices]. intros Hdb Hpv. rewrite Hdb in Hpv.
  cbn [from_option Datatypes.id] in Hpv.
  run. rewrite Hidx, Hprev.
  cbv beta iota delta [fst snd store db notices]. rewrite Hdb.
  cbv beta iota delta [fst snd store db notices].
  destruct (default ∅ (st !! pid) !! id prev) as [[dd|x]|];
    cbn [from_option Datatypes.id]; try done; by eexists.
Qed.

(** The view of a regular step, case by case. *)
Lemma handle_step_regular wf k w i step v :
  steps_indices wf !! k = Some i →
  steps wf !! i = Some step →
  done step ≠ "finalized" →
  step_value (current_state w) step = Some v →
  let next := next_step_id wf i in
  handle_step wf k w
  = if is_finalized (current_state w) then (Ok (Locked (show step) v next), w)
    else if truthy v && not_revert_target (current_state w) k
    then (Ok (Completed k (show step +:+ ": " +:+ py_str v) next), w)
    else if refill step && truthy v && PRESERVE_REFILL wf
    then (Ok (InputForm (id step) v next), add_notice (StepInputMessage k) w)
    else match (get_suggestion wf k w).1 with
         | Ok dv => (Ok (InputForm (id step) dv next),
                     add_notice (StepInputMessage k) w)
         | Raise e => (Raise e, w)
         end.
Proof.
  intros Hidx Hstep Hreg Hval next.
  destruct (steps_indices_Some _ _ _ Hidx) as (s0 & Hs0 & Hid).
  assert (s0 = step) by congruence. subst s0.
  pose proof (get_suggestion_world wf k w) as Hsug.
  destruct (get_suggestion wf k w) as [r ws] eqn:Esug.
  simpl in Hsug. subst ws.
  revert Hval Esug. destruct w as [st d ns].
  unfold step_value, is_finalized, current_state, pipeline_id_of, state_of,
    add_notice.
  cbn [store db notices]. rewrite Hid. intros Hval Esug.
  unfold handle_step, lookup_step. run. rewrite Hidx, Hstep.
  cbv beta iota delta [fst snd store db notices].
  rewrite Hid. rewrite bool_decide_eq_false_2 by exact Hreg.
  set (state := default ∅ (st !! default (Some "unknown") (d !! "pipeline_id")))
    in *.
  assert (Hd : ∃ dd, default (Data ∅) (state !! k) = Data dd
                   ∧ default (VStr "") (dd !! done step) = v).
  { destruct (state !! k) as [[dd|x]|]; simplify_eq/=; eauto. }
  destruct Hd as (dd & -> & Hv). rewrite Hv.
  cbv beta iota delta [fst snd store db notices].
  destruct (contains "finalized" _); [reflexivity|].
  destruct (truthy v && not_revert_target state k); [reflexivity|].
  destruct (refill step && truthy v && PRESERVE_REFILL wf); [reflexivity|].
  rewrite Esug. by destruct r.
Qed.

(** The view of the finalize step. *)
Lemma handle_step_finalize_step wf k w i step v :
  steps_indices wf !! k = Some i →
  steps wf !! i = Some step →
  done step = "finalized" →
  step_value (current_state w) step = Some v →
  handle_step wf k w
  = (Ok (if is_finalized (current_state w) then PipelineFinalized
         else FinalizePipeline k), w).
Proof.
  intros Hidx Hstep Hfin Hval.
  destruct (steps_indices_Some _ _ _ Hidx) as (s0 & Hs0 & Hid).
  assert (s0 = step) by congruence. subst s0.
  revert Hval. destruct w as [st d ns].
  unfold step_value, is_finalized, current_state, pipeline_id_of, state_of.
  cbn [store db notices]. rewrite Hid. intros Hval.
  unfold handle_step, lookup_step. run. rewrite Hidx, Hstep.
  cbv beta iota delta [fst snd store db notices].
  rewrite bool_decide_eq_true_2 by exact Hfin.
  set (state := default ∅ (st !! default (Some "unknown") (d !! "pipeline_id")))
    in *.
  destruct (state !! k) as [[dd|x]|]; simplify_eq/=;
    by destruct (contains "finalized" _).
Qed.

(** Rendering a step writes neither to the pipeline table nor to the
    session, whatever it returns. *)
Lemma handle_step_readonly wf k w :
  store (handle_step wf k w).2 = store w ∧ db (handle_step wf k w).2 = db w.
Proof.
  pose proof (get_suggestion_world wf k w) as Hsug.
  destruct (get_suggestion wf k w) as [r ws] eqn:Esug.
  simpl in Hsug. subst ws. revert Esug.
  destruct w as [st d ns]. intros Esug.
  unfold handle_step, lookup_step. run.
  destruct (steps_indices wf !! k) as [i|]; [|done].
  destruct (steps wf !! i) as [step|]; [|done].
  cbv beta iota delta [fst snd store db notices].
  destruct (default (Data ∅) _) as [dd|x]; [|done].
  destruct (bool_decide (done step = "finalized")).
  { by destruct (contains "finalized" _). }
  destruct (contains "finalized" _); [done|].
  destruct (truthy _ && not_revert_target _ k); [done|].
  destruct (refill step && truthy _ && PRESERVE_REFILL wf); [done|].
  rewrite Esug. by destruct r.
Qed.

Lemma handle_step_unknown wf k w :
  steps_indices wf !! k = None → handle_step wf k w = (Raise (KeyError k), w).
Proof.
  intros H. destruct w. unfold handle_step, lookup_step. run. by rewrite H.
Qed.

Lemma handle_step_untyped wf k w i step :
  steps_indices wf !! k = Some i →
  steps wf !! i = Some step →
  step_value (current_state w) step = None →
  handle_step wf k w = (Raise AttributeError, w).
Proof.
  intros Hidx Hstep Hval.
  destruct (steps_indices_Some _ _ _ Hidx) as (s0 & Hs0 & Hid).
  assert (s0 = step) by congruence. subst s0.
  revert Hval. destruct w as [st d ns].
  unfold step_value, current_state, pipeline_id_of, state_of.
  cbn [store db notices]. rewrite Hid. intros Hval.
  unfold handle_step, lookup_step. run. rewrite Hidx, Hstep.
  cbv beta iota delta [fst snd store db notices].
  set (state := default ∅ (st !! default (Some "unknown") (d !! "pipeline_id")))
    in *.
  by destruct (state !! k) as [[dd|x]|]; simplify_eq/=.
Qed.

Lemma step_value_stored state step v :
  step_value state step = Some v → stored_value state step = v.
Proof.
  unfold step_value, stored_value.
  destruct (state !! id step) as [[dd|x]|]; by intros; simplify_eq.
Qed.

Lemma truthy_false v : truthy v = false → v = VStr "".
Proof.
  destruct v as [s|]; simpl; [|done].
  intros H. apply bool_decide_eq_false in H. f_equal.
  by destruct (decide (s = "")).
Qed.

(** C3 (amended): on a finalized pipeline, rendering a step returns the
    locked read-only card of a regular step, or the card that offers only
    Unfinalize for the finalize step, and leaves the world as it was. *)
Theorem finalized_render_is_locked wf k w i step v :
  steps_indices wf !! k = Some i →
  steps wf !! i = Some step →
  step_value (current_state w) step = Some v →
  is_finalized (current_state w) = true →
  handle_step wf k w
  = (Ok (if bool_decide (done step = "finalized") then PipelineFinalized
         else Locked (show step) v (next_step_id wf i)), w).
Proof.
  intros Hidx Hstep Hval Hfin. case_bool_decide as Hd.
  - rewrite (handle_step_finalize_step wf k w i step v) by done.
    by rewrite Hfin.
  - rewrite (handle_step_regular wf k w i step v) by done.
    by rewrite Hfin.
Qed.

Lemma finalized_render_is_locked_witness :
  handle_step HelloFlow "step_01" hello_finalized
  = (Ok (Locked "Your Name" (VStr "Ada") (Some "step_02")), hello_finalized).
Proof.
  apply (finalized_render_is_locked HelloFlow "step_01" hello_finalized 0
           (mkStep "step_01" "name" "Your Name" true None) (VStr "Ada"));
    reflexivity.
Defined.

(** C3, as stated, fails: a submission to [step_01] of a finalized
    pipeline is accepted and replaces the stored name. *)
Lemma submit_while_finalized_mutates :
  let r := handle_step_submit HelloFlow "step_01" {["name" := "Grace"]}
             hello_finalized in
  is_finalized (current_state hello_finalized) = true ∧
  current_state hello_finalized !! "step_01"
    = Some (Data {["name" := VStr "Ada"]}) ∧
  r.1 = Ok (Completed "step_01" "Your Name: Grace" (Some "step_02")) ∧
  current_state r.2 !! "step_01" = Some (Data {["name" := VStr "Grace"]}) ∧
  current_state r.2 ≠ current_state hello_finalized.
Proof.
  cbv zeta. split_and!; try reflexivity.
  intros H.
  assert (E : current_state
                (handle_step_submit HelloFlow "step_01" {["name" := "Grace"]}
                   hello_finalized).2 !! "step_01"
              = current_state hello_finalized !! "step_01") by by rewrite H.
  vm_compute in E. discriminate E.
Qed.

(** C6 (amended): on a pipeline that is not finalized, a regular step is
    rendered as the completed view exactly when its stored value is not
    empty and it is not the revert target; otherwise, in a session that
    holds a pipeline id and over step entries that are dictionaries, it is
    rendered as the input form; rendering writes nothing to the pipeline
    table or the session. *)
Theorem render_step_view wf k w i step v :
  steps_indices wf !! k = Some i →
  steps wf !! i = Some step →
  done step ≠ "finalized" →
  step_value (current_state w) step = Some v →
  is_finalized (current_state w) = false →
  let next := next_step_id wf i in
  let shown := truthy v && not_revert_target (current_state w) k in
  is_completed (handle_step wf k w).1 = shown ∧
  (shown = true →
   handle_step wf k w
   = (Ok (Completed k (show step +:+ ": " +:+ py_str v) next), w)) ∧
  (shown = false →
   ∀ pid, db w !! "pipeline_id" = Some pid →
   Forall (λ s, is_Some (step_value (current_state w) s)) (steps wf) →
   ∃ dv,
     get_suggestion wf k w = (Ok dv, w) ∧
     handle_step wf k w
     = (Ok (InputForm (id step)
              (if refill step && truthy v && PRESERVE_REFILL wf
               then v else dv)
              next),
        add_notice (StepInputMessage k) w)) ∧
  store (handle_step wf k w).2 = store w ∧
  db (handle_step wf k w).2 = db w.
Proof.
  intros Hidx Hstep Hreg Hval Hfin next shown.
  destruct (handle_step_readonly wf k w) as [Hst Hdb].
  rewrite (handle_step_regular wf k w i step v) in * by done.
  rewrite Hfin in *. fold next shown in Hst, Hdb |- *.
  destruct shown; split_and!; try done.
  - destruct (refill step && truthy v && PRESERVE_REFILL wf); [done|].
    by destruct (get_suggestion wf k w).1.
  - intros _ pid Hpid Htyped.
    destruct (get_suggestion_returns wf k w pid Hpid Htyped) as [dv Hdv].
    exists dv. split; [done|].
    destruct (refill step && truthy v && PRESERVE_REFILL wf); [done|].
    by rewrite Hdv.
Qed.

Lemma render_step_view_witness :
  handle_step HelloFlow "step_01" hello_complete
  = (Ok (Completed "step_01" "Your Name: Ada" (Some "step_02")),
     hello_complete) ∧
  (handle_step HelloFlow "step_01" hello_reverting).1
  = Ok (InputForm "step_01" (VStr "Ada") (Some "step_02")) ∧
  (handle_step HelloFlow "step_02" hello_named).1
  = Ok (InputForm "step_02" (VStr "Hello Ada") (Some "finalize")).
Proof.
  pose (step := mkStep "step_01" "name" "Your Name" true None).
  pose (step2 := mkStep "step_02" "greeting" "Hello Message" false
                   (Some (λ name, VStr ("Hello " +:+ py_str name)))).
  split_and!.
  - pose proof (render_step_view HelloFlow "step_01" hello_complete 0
                  step (VStr "Ada") eq_refl eq_refl ltac:(discriminate)
                  eq_refl eq_refl) as (_ & H & _).
    exact (H eq_refl).
  - pose proof (render_step_view HelloFlow "step_01" hello_reverting 0
                  step (VStr "Ada") eq_refl eq_refl ltac:(discriminate)
                  eq_refl eq_refl) as (_ & _ & H & _).
    destruct (H eq_refl (Some "p") eq_refl) as (dv & _ & E).
    + repeat constructor; by eexists.
    + rewrite E. reflexivity.
  - pose proof (render_step_view HelloFlow "step_02" hello_named 1
                  step2 (VStr "") eq_refl eq_refl ltac:(discriminate)
                  eq_refl eq_refl) as (_ & _ & H & _).
    destruct (H eq_refl (Some "p") eq_refl) as (dv & Hdv & E).
    + repeat constructor; by eexists.
    + rewrite E. cbn [fst]. do 2 f_equal.
      cbn [refill step2 andb]. by injection Hdv as <-.
Defined.

(** C6, as stated, fails: [step_01] of a finalized pipeline has data and
    is not the revert target, yet it is rendered as the locked card, which
    is neither the completed view nor the input form. *)
Lemma render_finalized_not_completed :
  let step := mkStep "step_01" "name" "Your Name" true None in
  let r := (handle_step HelloFlow "step_01" hello_finalized).1 in
  has_data (current_state hello_finalized) step = true ∧
  not_revert_target (current_state hello_finalized) "step_01" = true ∧
  r = Ok (Locked "Your Name" (VStr "Ada") (Some "step_02")) ∧
  is_completed r = false ∧
  is_input_form r = false.
Proof. cbv zeta. by split_and!. Qed.

(** ** The suggested value *)

Lemma hello_indices k i :
  steps_indices HelloFlow !! k = Some i →
  (k = "step_01" ∧ i = 0) ∨ (k = "step_02" ∧ i = 1) ∨
  (k = "finalize" ∧ i = 2).
Proof.
  intros H. apply steps_indices_Some in H as (s & Hs & Hid).
  destruct i as [|[|[|i]]]; simpl in Hs; simplify_eq/=; auto.
Qed.

Lemma hello_step_01_suggestion w :
  get_suggestion HelloFlow "step_01" w = (Ok (VStr ""), w).
Proof. reflexivity. Qed.

Lemma hello_step_02_suggestion st d ns :
  get_suggestion HelloFlow "step_02" (World st d ns)
  = match d !! "pipeline_id" with
    | None => (Raise (KeyError "pipeline_id"), World st d ns)
    | Some pid =>
        match default (Data ∅) (default ∅ (st !! pid) !! "step_01") with
        | Data dd =>
            let prev_word := default (VStr "") (dd !! "name") in
            (Ok (if truthy prev_word
                 then VStr ("Hello " +:+ py_str prev_word) else VStr ""),
             World st d ns)
        | Scalar _ => (Raise AttributeError, World st d ns)
        end
    end.
Proof.
  unfold get_suggestion. run.
  change (list_find (λ s, id s = "step_02") (steps HelloFlow))
    with (Some (1, mkStep "step_02" "greeting" "Hello Message" false
                     (Some (λ name, VStr ("Hello " +:+ py_str name))))).
  cbn [transform].
  change (steps_indices HelloFlow !! "step_02") with (Some 1).
  cbn [steps HelloFlow hello_steps lookup list_lookup id].
  cbv beta iota delta [fst snd store db notices].
  destruct (d !! "pipeline_id") as [pid|]; [|reflexivity].
  by destruct (default (Data ∅) (default ∅ (st !! pid) !! "step_01")).
Qed.

(** C7: whenever HelloFlow renders a step as an input form, the value
    filled in is the one the specification words: the step's stored value
    when the step refills and the policy is on, otherwise the transform of
    the previous step's stored value, and the empty string without a
    transform or without a previous value. *)
Theorem input_form_suggestion k w sid dv next w' :
  handle_step HelloFlow k w = (Ok (InputForm sid dv next), w') →
  ∃ i step,
    steps_indices HelloFlow !! k = Some i ∧
    steps HelloFlow !! i = Some step ∧
    sid = id step ∧
    dv = spec_suggestion HelloFlow (current_state w) i step.
Proof.
  intros H.
  destruct (steps_indices HelloFlow !! k) as [i|] eqn:Hidx.
  2: { by rewrite handle_step_unknown in H. }
  destruct (steps_indices_Some _ _ _ Hidx) as (step & Hstep & Hid).
  exists i, step. split; [done|]. split; [done|].
  destruct (step_value (current_state w) step) as [v|] eqn:Hval.
  2: { by rewrite (handle_step_untyped _ k w i step) in H. }
  destruct (hello_indices _ _ Hidx) as [[-> ->]|[[-> ->]|[-> ->]]];
    simpl in Hstep; simplify_eq.
  3: { rewrite (handle_step_finalize_step _ _ w 2 _ v) in H by done.
       by destruct (is_finalized (current_state w)). }
  all: rewrite (handle_step_regular _ _ w _ _ v) in H by done.
  all: destruct (is_finalized (current_state w)); [done|].
  all: destruct (truthy v && not_revert_target _ _); [done|].
  all: pose proof (step_value_stored _ _ _ Hval) as Hstored.
  all: unfold spec_suggestion; cbn [refill PRESERVE_REFILL HelloFlow
         hello_steps transform andb steps id] in *.
  - rewrite andb_true_r in H. destruct (truthy v) eqn:Ht.
    + by simplify_eq.
    + apply truthy_false in Ht. subst v.
      rewrite hello_step_01_suggestion in H. simpl in H. by simplify_eq.
  - clear Hstored Hval. revert H. destruct w as [st d ns].
    rewrite hello_step_02_suggestion.
    unfold current_state, pipeline_id_of, state_of, stored_value.
    cbn [store db notices id done lookup list_lookup hello_steps].
    destruct (d !! "pipeline_id") as [pid|]; [|done].
    cbn [from_option Datatypes.id fst snd].
    destruct (default ∅ (st !! pid) !! "step_01") as [[dd|x]|];
      cbn [from_option Datatypes.id fst snd]; intros H; by simplify_eq.
Qed.

(** C7, on HelloFlow: the greeting suggested from the stored name. *)
Lemma input_form_suggestion_witness :
  handle_step HelloFlow "step_02" hello_named
  = (Ok (InputForm "step_02" (VStr "Hello Ada") (Some "finalize")),
     add_notice (StepInputMessage "step_02") hello_named) ∧
  spec_suggestion HelloFlow (current_state hello_named) 1
    (mkStep "step_02" "greeting" "Hello Message" false
       (Some (λ name, VStr ("Hello " +:+ py_str name))))
  = VStr "Hello Ada".
Proof.
  assert (E : handle_step HelloFlow "step_02" hello_named
              = (Ok (InputForm "step_02" (VStr "Hello Ada") (Some "finalize")),
                 add_notice (StepInputMessage "step_02") hello_named))
    by reflexivity.
  split; [exact E|].
  destruct (input_form_suggestion _ _ _ _ _ _ E)
    as (i & step & Hidx & Hstep & _ & Hdv).
  assert (i = 1) by (vm_compute in Hidx; congruence). subst i.
  simpl in Hstep. injection Hstep as <-. symmetry. exact Hdv.
Defined.

(** ** The guard of finalize *)

(** The completeness check reads only the pipeline table. *)
Lemma all_steps_complete_world pid (l : list Step) st :
  ∃ r, ∀ d ns,
    all_steps_complete pid l (World st d ns) = (r, World st d ns).
Proof.
  induction l as [|s l [r IH]]; [by eexists|].
  cbn [all_steps_complete]. run.
  destruct (default (Data ∅) _) as [dd|x]; [|by eexists].
  destruct (truthy _); [by exists r|by eexists].
Qed.

Lemma all_steps_complete_typed pid (l : list Step) w :
  Forall (λ s, is_Some (step_value (state_of pid w) s)) l →
  all_steps_complete pid l w = (Ok (forallb (has_data (state_of pid w)) l), w).
Proof.
  destruct w as [st d ns]. unfold state_of. cbn [store].
  induction l as [|s l IH]; intros Hall; [reflexivity|].
  apply Forall_cons in Hall as [[v Hv] Hall].
  cbn [all_steps_complete forallb]. run.
  revert Hv. unfold step_value, has_data.
  destruct (default ∅ (st !! pid) !! id s) as [[dd|x]|]; intros Hv;
    simplify_eq/=.
  - destruct (truthy _); [by apply IH|reflexivity].
  - reflexivity.
Qed.

(** C2 (amended): the guard of finalize is its GET view.  On a pipeline
    that is not locked, GET answers "Ready to finalize?" exactly when every
    regular step has data and "Nothing to finalize yet." otherwise, and it
    leaves the world as it was. *)
Theorem finalize_GET_guard wf now w fs :
  last (steps wf) = Some fs →
  contains (done fs) (default (Data ∅) (current_state w !! id fs)) = false →
  Forall (λ s, is_Some (step_value (current_state w) s))
         (non_finalize_steps wf) →
  finalize wf GET now w
  = (Ok (if all_complete wf (current_state w) then ReadyToFinalize
         else NothingToFinalize), w) ∧
  (all_complete wf (current_state w) = true ↔
   ∀ s, s ∈ non_finalize_steps wf → has_data (current_state w) s = true).
Proof.
  intros Hlast Hunlocked Htyped. split.
  - pose proof (all_steps_complete_typed (pipeline_id_of w) _ w Htyped) as E.
    revert Hunlocked E. destruct w as [st d ns].
    unfold all_complete, current_state, pipeline_id_of, state_of, finalize.
    cbn [store db notices]. intros Hunlocked E. run. rewrite Hlast.
    cbv beta iota delta [fst snd store db notices].
    rewrite Hunlocked, E. by destruct (forallb _ _).
  - unfold all_complete. rewrite forallb_forall.
    split; intros H s Hs; apply H; by apply list_elem_of_In.
Qed.

Lemma finalize_GET_guard_witness :
  finalize HelloFlow GET "2025-01-01T00:00:00" hello_named
    = (Ok NothingToFinalize, hello_named) ∧
  finalize HelloFlow GET "2025-01-01T00:00:00" hello_complete
    = (Ok ReadyToFinalize, hello_complete).
Proof.
  pose (fs := mkStep "finalize" "finalized" "Finalize" false None).
  split.
  - refine (proj1 (finalize_GET_guard HelloFlow "2025-01-01T00:00:00"
                     hello_named fs eq_refl eq_refl _)).
    repeat constructor; by eexists.
  - refine (proj1 (finalize_GET_guard HelloFlow "2025-01-01T00:00:00"
                     hello_complete fs eq_refl eq_refl _)).
    repeat constructor; by eexists.
Defined.

(** C2, as stated, fails: the POST of finalize on a pipeline without any
    step data sets the lock all the same. *)
Lemma finalize_without_data_locks :
  let r := finalize HelloFlow POST "2025-01-01T00:00:00" hello_new in
  all_complete HelloFlow (current_state hello_new) = false ∧
  is_finalized (current_state hello_new) = false ∧
  r.1 = Ok (Container (generate_step_placeholders HelloFlow)) ∧
  current_state r.2 !! "finalize" = Some (Data {["finalized" := VTrue]}) ∧
  is_finalized (current_state r.2) = true.
Proof. cbv zeta. by split_and!. Qed.

(** ** Unknown and missing step ids *)

(** C8 (amended): a revert without a step id, or with an empty one, is
    answered with the inline error and changes nothing; jump_to_step reports
    no error for any step id: it records the id of the form ([None] when
    there is none) under ["step_id"] in the session store, keeps the
    session's pipeline id, and never touches the pipeline table. *)
Theorem missing_step_id_is_reported wf form w :
  (form !! "step_id" = None ∨ form !! "step_id" = Some "" →
   handle_revert wf form w = (Ok (ErrorP "Error: No step specified"), w)) ∧
  (jump_to_step wf form w).1 = Ok (Rebuilt (app_name wf) (id <$> steps wf)) ∧
  store (jump_to_step wf form w).2 = store w ∧
  db (jump_to_step wf form w).2 = <["step_id" := form !! "step_id"]> (db w) ∧
  db (jump_to_step wf form w).2 !! "step_id" = Some (form !! "step_id") ∧
  pipeline_id_of (jump_to_step wf form w).2 = pipeline_id_of w ∧
  notices (jump_to_step wf form w).2 = notices w.
Proof.
  split.
  - destruct w as [st d ns]. unfold handle_revert. run.
    by intros [->| ->].
  - destruct w as [st d ns]. unfold jump_to_step, pipeline_id_of. run.
    cbn [fst snd store db notices]. split_and!; try done.
    + apply lookup_insert_eq.
    + by rewrite lookup_insert_ne.
Qed.

Lemma missing_step_id_is_reported_witness :
  handle_revert HelloFlow ∅ hello_complete
    = (Ok (ErrorP "Error: No step specified"), hello_complete) ∧
  db (jump_to_step HelloFlow {["step_id" := "bogus"]} hello_complete).2
    !! "step_id" = Some (Some "bogus").
Proof.
  split.
  - apply (proj1 (missing_step_id_is_reported HelloFlow ∅ hello_complete)).
    left. reflexivity.
  - destruct (missing_step_id_is_reported HelloFlow {["step_id" := "bogus"]}
                hello_complete) as (_ & _ & _ & _ & H & _).
    exact H.
Defined.

(** C8, as stated, fails: a revert to a step id that is not a step of the
    workflow is not answered with an error and records the id as
    [_revert_target]; jump_to_step answers no error either. *)
Lemma revert_unknown_step_mutates :
  let r := handle_revert HelloFlow {["step_id" := "bogus"]} hello_complete in
  steps_indices HelloFlow !! "bogus" = None ∧
  is_error r.1 = false ∧
  r.1 = Ok (Container (generate_step_placeholders HelloFlow)) ∧
  current_state hello_complete !! "_revert_target" = None ∧
  current_state r.2 !! "_revert_target" = Some (Scalar "bogus") ∧
  is_error (jump_to_step HelloFlow {["step_id" := "bogus"]} hello_complete).1
    = false.
Proof. cbv zeta. by split_and!. Qed.

(** ** Default pipeline ids *)

Lemma handle_revert_unknown_id wf form w :
  db w !! "pipeline_id" = None →
  agree (handle_revert wf form w) (handle_revert wf form (as_unknown w)).
Proof.
  intros H. destruct w as [st d ns]. unfold as_unknown, agree, same_data.
  cbn [store db notices] in *.
  unfold handle_revert, clear_steps_from. run.
  rewrite H, lookup_insert_eq. simpl.
  repeat case_match; simplify_eq/=; done.
Qed.

Lemma handle_step_submit_unknown_id wf k form w :
  db w !! "pipeline_id" = None →
  agree (handle_step_submit wf k form w)
        (handle_step_submit wf k form (as_unknown w)).
Proof.
  intros H. destruct w as [st d ns]. unfold as_unknown, agree, same_data.
  cbn [store db notices] in *.
  unfold handle_step_submit, lookup_step, clear_steps_from. run.
  destruct (steps_indices wf !! k) as [i|]; [|done].
  destruct (steps wf !! i) as [step|]; [|done].
  cbv beta iota delta [fst snd store db notices].
  rewrite H, lookup_insert_eq.
  repeat case_match; simplify_eq/=; done.
Qed.

Lemma finalize_unknown_id wf m now w :
  db w !! "pipeline_id" = None →
  agree (finalize wf m now w) (finalize wf m now (as_unknown w)).
Proof.
  intros H. destruct w as [st d ns]. unfold as_unknown, agree, same_data.
  cbn [store db notices] in *.
  destruct (all_steps_complete_world (Some "unknown")
              (non_finalize_steps wf) st) as [r E].
  unfold finalize. run.
  rewrite H, lookup_insert_eq. cbn [from_option Datatypes.id].
  destruct (last (steps wf)) as [fs|]; [|done].
  cbv beta iota delta [fst snd store db notices].
  destruct m; [|done].
  destruct (contains _ _); [done|].
  rewrite !E. by destruct r as [[|]|].
Qed.

Lemma unfinalize_unknown_id wf w :
  db w !! "pipeline_id" = None →
  agree (unfinalize wf w) (unfinalize wf (as_unknown w)).
Proof.
  intros H. destruct w as [st d ns]. unfold as_unknown, agree, same_data.
  cbn [store db notices] in *.
  unfold unfinalize. run.
  by rewrite H, lookup_insert_eq.
Qed.

(** What [init] does to the session and the pipeline table. *)
Lemma init_session wf form w :
  let pipeline_id := default "untitled" (form !! "pipeline_id") in
  (init wf form w).1 = Ok (Container (generate_step_placeholders wf)) ∧
  db (init wf form w).2 = <["pipeline_id" := Some pipeline_id]> (db w) ∧
  is_Some (store (init wf form w).2 !! Some pipeline_id).
Proof.
  destruct w as [st d ns]. unfold init, initialize_if_missing. run.
  cbn [from_option Datatypes.id store db notices].
  unfold set_store.
  destruct (st !! Some (default "untitled" (form !! "pipeline_id")))
    as [state|] eqn:E.
  all: cbv beta iota delta [fst snd store db notices].
  all: destruct (init_all_steps_complete wf _);
         [destruct (init_is_finalized _)|destruct (negb _)].
  all: cbn [fst snd store db notices]; split_and!; try done.
  all: rewrite ?lookup_insert_eq; eauto.
Qed.

(** C9 (amended): a pipeline id absent from the form of [init] is replaced
    by ["untitled"]; a pipeline id absent from the session is read as
    ["unknown"] by revert, step submission, finalize and unfinalize, which
    then run as they do in a session whose id is ["unknown"]. *)
Theorem default_pipeline_ids wf form k m now w :
  (form !! "pipeline_id" = None →
   (init wf form w).1 = Ok (Container (generate_step_placeholders wf)) ∧
   db (init wf form w).2 !! "pipeline_id" = Some (Some "untitled") ∧
   is_Some (store (init wf form w).2 !! Some "untitled")) ∧
  (db w !! "pipeline_id" = None →
   pipeline_id_of w = Some "unknown" ∧
   agree (handle_revert wf form w) (handle_revert wf form (as_unknown w)) ∧
   agree (handle_step_submit wf k form w)
         (handle_step_submit wf k form (as_unknown w)) ∧
   agree (finalize wf m now w) (finalize wf m now (as_unknown w)) ∧
   agree (unfinalize wf w) (unfinalize wf (as_unknown w))).
Proof.
  split.
  - intros Hform. destruct (init_session wf form w) as (H1 & H2 & H3).
    rewrite Hform in *. cbn [from_option Datatypes.id] in *.
    split_and!; [done| |done]. rewrite H2. apply lookup_insert_eq.
  - intros Hdb. split_and!.
    + unfold pipeline_id_of. by rewrite Hdb.
    + by apply handle_revert_unknown_id.
    + by apply handle_step_submit_unknown_id.
    + by apply finalize_unknown_id.
    + by apply unfinalize_unknown_id.
Qed.

Lemma default_pipeline_ids_witness :
  db (init HelloFlow ∅ hello_no_session).2 !! "pipeline_id"
    = Some (Some "untitled") ∧
  pipeline_id_of hello_no_session = Some "unknown" ∧
  agree (unfinalize HelloFlow hello_no_session)
        (unfinalize HelloFlow (as_unknown hello_no_session)).
Proof.
  destruct (default_pipeline_ids HelloFlow ∅ "step_01" POST
              "2025-01-01T00:00:00" hello_no_session) as [Hinit Hdb].
  destruct (Hinit eq_refl) as (_ & H1 & _).
  destruct (Hdb eq_refl) as (H2 & _ & _ & _ & H3).
  by split_and!.
Defined.

(** C9, as stated, fails: a blank pipeline id supplied to [init] is kept
    as the empty string, it is not replaced by ["untitled"]. *)
Lemma init_blank_id_is_kept :
  let r := init HelloFlow {["pipeline_id" := ""]} hello_no_session in
  r.1 = Ok (Container (generate_step_placeholders HelloFlow)) ∧
  db r.2 !! "pipeline_id" = Some (Some "") ∧
  store r.2 !! Some "untitled" = None ∧
  is_Some (store r.2 !! Some "").
Proof. cbv zeta. by split_and!. Qed.

(** The suggestion of a step with a transform subscripts the session
    ([db["pipeline_id"]]) where every other read uses the default: without
    a session id, rendering [step_02] raises, rendering [step_01] does
    not. *)
Example render_without_session_id :
  handle_step HelloFlow "step_02" hello_no_session
    = (Raise (KeyError "pipeline_id"), hello_no_session) ∧
  (handle_step HelloFlow "step_01" hello_no_session).1
    = Ok (InputForm "step_01" (VStr "") (Some "step_02")).
Proof. by split. Qed.

(** * Further properties of the engine *)

(** ** The placeholder sequence *)

Lemma placeholders_from_lookup wf prev (l : list Step) i step :
  l !! i = Some step →
  placeholders_from wf prev l !! i
  = Some (Placeholder (id step) ("/" +:+ app_name wf +:+ "/" +:+ id step)
            (trigger_after (match i with 0 => prev | S j => l !! j end))).
Proof.
  revert prev i. induction l as [|s l IH]; intros prev i Hi; [done|].
  destruct i as [|i]; simpl in *.
  - by simplify_eq.
  - rewrite (IH (Some s) i Hi). by destruct i.
Qed.

(** X1: the placeholder sequence has one placeholder per step, in order;
    each fetches its own step's route; the first loads at once and every
    other one waits for the completion of the step just before it. *)
Theorem placeholders_chain wf i step :
  steps wf !! i = Some step →
  length (generate_step_placeholders wf) = length (steps wf) ∧
  generate_step_placeholders wf !! i
  = Some (Placeholder (id step) ("/" +:+ app_name wf +:+ "/" +:+ id step)
            (match i with
             | 0 => Load
             | S j => trigger_after (steps wf !! j)
             end)).
Proof.
  intros Hi. split.
  - rewrite <- (length_fmap ph_id), generate_step_placeholders_ids.
    apply length_fmap.
  - unfold generate_step_placeholders.
    rewrite (placeholders_from_lookup wf None _ i step Hi). by destruct i.
Qed.

Lemma indices_from_NoDup (l : list Step) n acc j s :
  NoDup (id <$> l) → l !! j = Some s →
  indices_from n l acc !! id s = Some (n + j).
Proof.
  revert n acc j. induction l as [|s0 l IH]; intros n acc j Hnd Hj; [done|].
  simpl in Hnd. apply NoDup_cons in Hnd as [Hfresh Hnd].
  destruct j as [|j]; simpl in *.
  - simplify_eq. rewrite indices_from_fresh by done.
    rewrite lookup_insert_eq. f_equal. lia.
  - rewrite (IH (S n) _ j Hnd Hj). f_equal. lia.
Qed.

(** X2: in a workflow whose step ids are unique, the index dictionary
    built from the step list gives back, for the id of the step at position
    [i], that position, and the handlers' lookup returns the step itself. *)
Theorem lookup_step_roundtrip wf i step w :
  NoDup (id <$> steps wf) →
  steps wf !! i = Some step →
  steps_indices wf !! id step = Some i ∧
  lookup_step wf (id step) w = (Ok (i, step), w).
Proof.
  intros Hnd Hi.
  assert (E : steps_indices wf !! id step = Some i).
  { unfold steps_indices. by rewrite (indices_from_NoDup _ 0 ∅ i step). }
  split; [done|]. unfold lookup_step. run. by rewrite E, Hi.
Qed.

(** X3: for a path whose step id is none of the workflow's, rendering and
    submission both raise [KeyError] at the index lookup, before anything is
    read or written. *)
Theorem unknown_step_raises wf k form w :
  k ∉ id <$> steps wf →
  handle_step wf k w = (Raise (KeyError k), w) ∧
  handle_step_submit wf k form w = (Raise (KeyError k), w).
Proof.
  intros Hk.
  assert (E : steps_indices wf !! k = None).
  { unfold steps_indices. by rewrite indices_from_fresh. }
  destruct w. unfold handle_step, handle_step_submit, lookup_step. run.
  by rewrite E.
Qed.

(** ** Submission: the finalize route and validation *)

(** X4: a submission on the route of the finalize step skips validation
    and processing: whatever the form holds, it writes [{finalized: True}]
    under the step id, keeps every other entry (the revert marker too),
    streams the state message and answers with the placeholder sequence;
    under the id ["finalize"] this is the lock. *)
Theorem finalize_submit_locks wf k form w i step :
  steps_indices wf !! k = Some i →
  steps wf !! i = Some step →
  done step = "finalized" →
  let r := handle_step_submit wf k form w in
  r.1 = Ok (Container (generate_step_placeholders wf)) ∧
  current_state r.2
    = <[k := Data {["finalized" := VTrue]}]> (current_state w) ∧
  db r.2 = db w ∧
  notices r.2 = (notices w ++ [StateMessage (pipeline_id_of w)])%list ∧
  (k = "finalize" → is_finalized (current_state r.2) = true).
Proof.
  intros Hidx Hstep Hfin r.
  assert (E : r = (Ok (Container (generate_step_placeholders wf)),
                   World (<[pipeline_id_of w :=
                              <[k := Data {["finalized" := VTrue]}]>
                                (current_state w)]> (store w))
                         (db w)
                         (notices w ++ [StateMessage (pipeline_id_of w)]))).
  { subst r. destruct w as [st d ns].
    unfold current_state, pipeline_id_of, state_of.
    unfold handle_step_submit, lookup_step. run. rewrite Hidx, Hstep.
    cbv beta iota delta [fst snd store db notices].
    rewrite bool_decide_eq_true_2 by exact Hfin. by rewrite Hfin. }
  rewrite E. cbn [fst snd db notices]. rewrite current_state_insert.
  split_and!; try reflexivity.
  intros ->. unfold is_finalized. by rewrite lookup_insert_eq.
Qed.

(** X5: when validation rejects the value, the submission answers with
    the validator's message and nothing is cleared, written or streamed. *)
Theorem invalid_submission_rejected wf k form w i step msg :
  steps_indices wf !! k = Some i →
  steps wf !! i = Some step →
  done step ≠ "finalized" →
  validate_step wf k (default "" (form !! done step)) = (false, msg) →
  handle_step_submit wf k form w = (Ok (ErrorP msg), w).
Proof.
  intros Hidx Hstep Hreg Hval. destruct w as [st d ns].
  unfold handle_step_submit, lookup_step. run. rewrite Hidx, Hstep.
  cbv beta iota delta [fst snd store db notices].
  rewrite bool_decide_eq_false_2 by exact Hreg. by rewrite Hval.
Qed.

(** ** Finalize and unfinalize, continued *)

Lemma finalize_GET_world wf now w :
  (finalize wf GET now w).2 = w.
Proof.
  destruct w as [st d ns].
  destruct (all_steps_complete_world
              (default (Some "unknown") (d !! "pipeline_id"))
              (non_finalize_steps wf) st) as [r E].
  unfold finalize. run.
  destruct (last (steps wf)) as [fs|]; [|done].
  cbv beta iota delta [fst snd store db notices].
  destruct (contains _ _); [done|].
  rewrite E. by destruct r as [[|]|].
Qed.

(** X6: the GET of finalize never changes the world, whatever it
    answers. *)
Theorem finalize_GET_readonly wf now w :
  store (finalize wf GET now w).2 = store w ∧
  db (finalize wf GET now w).2 = db w ∧
  notices (finalize wf GET now w).2 = notices w.
Proof. by rewrite finalize_GET_world. Qed.

(** X7: after the POST of finalize the pipeline is locked, and the GET of
    finalize then answers with the card that offers only Unfinalize,
    whatever the steps hold. *)
Theorem finalize_POST_then_GET wf now now' w fs :
  last (steps wf) = Some fs →
  id fs = "finalize" →
  done fs = "finalized" →
  let w1 := (finalize wf POST now w).2 in
  is_finalized (current_state w1) = true ∧
  finalize wf GET now' w1 = (Ok AllCardsComplete, w1).
Proof.
  intros Hlast Hid Hdone w1. subst w1.
  rewrite (finalize_POST wf now w fs Hlast). cbn [snd].
  assert (Hlock : is_finalized
            (<["updated" := Scalar now]>
               (<["finalize" := Data {["finalized" := VTrue]}]>
                  (current_state w))) = true).
  { unfold is_finalized. rewrite lookup_insert_ne by done.
    by rewrite lookup_insert_eq. }
  split.
  - by rewrite current_state_insert.
  - revert Hlock. unfold is_finalized. destruct w as [st d ns].
    unfold current_state, pipeline_id_of, state_of. cbn [store db notices].
    intros Hlock. unfold finalize. run. rewrite Hlast.
    cbv beta iota delta [fst snd store db notices].
    rewrite lookup_insert_eq. cbn [from_option Datatypes.id].
    rewrite Hid, Hdone. by rewrite Hlock.
Qed.

(** X8: after the POST of finalize every regular step is rendered as the
    locked card showing the value it held before. *)
Theorem finalize_then_render_locked wf now k w i step v :
  steps_indices wf !! k = Some i →
  steps wf !! i = Some step →
  done step ≠ "finalized" →
  step_value (current_state w) step = Some v →
  id step ≠ "finalize" →
  id step ≠ "updated" →
  steps wf ≠ [] →
  let w1 := (finalize wf POST now w).2 in
  handle_step wf k w1 = (Ok (Locked (show step) v (next_step_id wf i)), w1).
Proof.
  intros Hidx Hstep Hreg Hval Hne1 Hne2 Hsteps w1.
  apply last_is_Some in Hsteps as [fs Hlast].
  assert (Hcur : current_state w1
                 = <["updated" := Scalar now]>
                     (<["finalize" := Data {["finalized" := VTrue]}]>
                        (current_state w))).
  { subst w1. rewrite (finalize_POST wf now w fs Hlast). cbn [snd].
    apply current_state_insert. }
  rewrite (handle_step_regular wf k w1 i step v); try done.
  - rewrite Hcur. unfold is_finalized.
    rewrite lookup_insert_ne by done. by rewrite lookup_insert_eq.
  - rewrite Hcur. revert Hval. unfold step_value.
    by rewrite !lookup_insert_ne by done.
Qed.

(** X9: after unfinalize the pipeline is not locked, whatever it was
    before, and a regular step with data that is not the revert target is
    rendered as the completed view again. *)
Theorem unfinalize_unlocks wf k w i step v :
  steps_indices wf !! k = Some i →
  steps wf !! i = Some step →
  done step ≠ "finalized" →
  step_value (current_state w) step = Some v →
  id step ≠ "finalize" →
  truthy v && not_revert_target (current_state w) k = true →
  let w1 := (unfinalize wf w).2 in
  is_finalized (current_state w1) = false ∧
  handle_step wf k w1
  = (Ok (Completed k (show step +:+ ": " +:+ py_str v) (next_step_id wf i)),
     w1).
Proof.
  intros Hidx Hstep Hreg Hval Hne Hshown w1.
  assert (Hcur : current_state w1 = delete "finalize" (current_state w)).
  { subst w1. rewrite unfinalize_eq. cbn [snd]. apply current_state_insert. }
  assert (Hlock : is_finalized (current_state w1) = false).
  { rewrite Hcur. unfold is_finalized. by rewrite lookup_delete_eq. }
  split; [done|].
  rewrite (handle_step_regular wf k w1 i step v); try done.
  - rewrite Hlock. rewrite Hcur. unfold not_revert_target.
    rewrite lookup_delete_ne by done. fold (not_revert_target (current_state w) k).
    by rewrite Hshown.
  - rewrite Hcur. revert Hval. unfold step_value.
    by rewrite lookup_delete_ne by done.
Qed.

(** ** Submission and revert, followed by rendering *)

Lemma clear_entries_cases (l : list Step) (state : gmap string entry) k :
  clear_entries l state !! k = None ∨ clear_entries l state !! k = state !! k.
Proof.
  destruct (decide (k ∈ id <$> l)).
  - left. by apply clear_entries_cleared.
  - right. by apply clear_entries_other.
Qed.

Lemma is_finalized_clear (l : list Step) (state : gmap string entry) :
  is_finalized state = false → is_finalized (clear_entries l state) = false.
Proof.
  unfold is_finalized. intros H.
  by destruct (clear_entries_cases l state "finalize") as [-> | ->].
Qed.

Lemma step_position_in_drop k (l : list Step) p :
  step_position k l = Some p → k ∈ id <$> drop p l.
Proof.
  intros (s & Hs & <-)%step_position_Some. by eapply lookup_drop_ge.
Qed.

(** X10: on a pipeline that is not locked, rendering a step right after
    a valid submission to it gives the completed view the submission itself
    returned, provided the processed value is not empty; an empty processed
    value is stored but the step is not rendered as completed. *)
Theorem submit_then_render wf k form w i step :
  steps_indices wf !! k = Some i →
  steps wf !! i = Some step →
  done step ≠ "finalized" →
  (validate_step wf k (default "" (form !! done step))).1 = true →
  NoDup (id <$> steps wf) →
  k ≠ "_revert_target" →
  is_finalized (current_state w) = false →
  let processed := process_step wf k (default "" (form !! done step)) in
  let w1 := (handle_step_submit wf k form w).2 in
  (processed ≠ "" →
   handle_step wf k w1
   = (Ok (Completed k (show step +:+ ": " +:+ processed) (next_step_id wf i)),
      w1)) ∧
  (processed = "" → is_completed (handle_step wf k w1).1 = false).
Proof.
  intros Hidx Hstep Hreg Hvalid Hnd Hrt Hlock processed w1.
  destruct (steps_indices_Some _ _ _ Hidx) as (s0 & Hs0 & Hid).
  assert (s0 = step) by congruence. subst s0.
  pose proof (step_position_NoDup _ _ _ Hnd Hstep) as Hpos.
  rewrite Hid in Hpos.
  assert (Hcur : current_state w1
                 = submitted_state wf i k (done step) processed
                     (current_state w)).
  { subst w1. rewrite (handle_step_submit_regular wf k form w i i step) by done.
    cbn [snd]. apply current_state_insert. }
  assert (Hval : step_value (current_state w1) step = Some (VStr processed)).
  { rewrite Hcur. unfold step_value, submitted_state. rewrite Hid.
    rewrite lookup_delete_ne by done. rewrite lookup_insert_eq.
    by rewrite lookup_singleton_eq. }
  assert (Hlock1 : is_finalized (current_state w1) = false).
  { rewrite Hcur. unfold submitted_state, is_finalized.
    rewrite lookup_delete_ne by done.
    destruct (decide (k = "finalize")) as [->|Hne].
    - rewrite lookup_insert_eq. simpl. apply bool_decide_eq_false_2.
      rewrite lookup_singleton_ne by done. by intros [? ?].
    - rewrite lookup_insert_ne by done.
      by apply (is_finalized_clear (drop i (steps wf))) in Hlock. }
  assert (Hnrt : not_revert_target (current_state w1) k = true).
  { rewrite Hcur. unfold not_revert_target, submitted_state.
    by rewrite lookup_delete_eq. }
  rewrite (handle_step_regular wf k w1 i step (VStr processed)) by done.
  rewrite Hlock1, Hnrt. split.
  - intros Hne. simpl. by rewrite bool_decide_eq_true_2.
  - intros ->. simpl.
    destruct (refill step && _ && _); [done|].
    by destruct (get_suggestion wf k w1).1.
Qed.


(** ** What the handlers leave alone *)

(** X12: submission, revert, finalize and unfinalize write to no
    pipeline other than the session's, and never to the session store,
    whatever they are given and whatever they answer. *)
Theorem handlers_frame wf k form m now w pid :
  pid ≠ pipeline_id_of w →
  (store (handle_step_submit wf k form w).2 !! pid = store w !! pid ∧
   db (handle_step_submit wf k form w).2 = db w) ∧
  (store (handle_revert wf form w).2 !! pid = store w !! pid ∧
   db (handle_revert wf form w).2 = db w) ∧
  (store (finalize wf m now w).2 !! pid = store w !! pid ∧
   db (finalize wf m now w).2 = db w) ∧
  (store (unfinalize wf w).2 !! pid = store w !! pid ∧
   db (unfinalize wf w).2 = db w).
Proof.
  intros Hpid. split_and!.
  - revert Hpid. destruct w as [st d ns]. unfold pipeline_id_of.
    cbn [db]. intros Hpid.
    unfold handle_step_submit, lookup_step, clear_steps_from. run.
    destruct (steps_indices wf !! k) as [i|]; [|done].
    destruct (steps wf !! i) as [step|]; [|done].
    cbv beta iota delta [fst snd store db notices].
    destruct (bool_decide (done step = "finalized")).
    { cbn [snd store]. by rewrite lookup_insert_ne. }
    destruct (validate_step wf k _) as [[|] msg]; [|done].
    cbv beta iota delta [negb].
    destruct (step_position k (steps wf));
      cbv beta iota delta [fst snd store db notices];
      destruct (bool_decide (next_step_id wf i = Some "finalize"));
      cbn [snd store]; by rewrite !lookup_insert_ne.
  - revert Hpid. destruct w as [st d ns]. unfold pipeline_id_of.
    cbn [db]. intros Hpid. unfold handle_step_submit, lookup_step. run.
    destruct (steps_indices wf !! k) as [i|]; [|done].
    destruct (steps wf !! i) as [step|]; [|done].
    cbv beta iota delta [fst snd store db notices].
    destruct (bool_decide (done step = "finalized")); [done|].
    destruct (validate_step wf k _) as [[|] msg]; [|done].
    unfold clear_steps_from. run.
    destruct (step_position k (steps wf));
      cbv beta iota delta [fst snd store db notices negb];
      by destruct (bool_decide (next_step_id wf i = Some "finalize")).
  - revert Hpid. destruct w as [st d ns]. unfold pipeline_id_of.
    cbn [db]. intros Hpid. unfold handle_revert, clear_steps_from. run.
    destruct (form !! "step_id") as [sid|]; [|done].
    destruct (bool_decide (sid = "")); [done|].
    destruct (step_position sid (steps wf));
      cbn [fst snd store]; by rewrite !lookup_insert_ne.
  - destruct w as [st d ns]. unfold handle_revert, clear_steps_from. run.
    destruct (form !! "step_id") as [sid|]; [|done].
    destruct (bool_decide (sid = "")); [done|].
    by destruct (step_position sid (steps wf)).
  - destruct m.
    + by rewrite finalize_GET_world.
    + revert Hpid. destruct w as [st d ns]. unfold pipeline_id_of.
      cbn [db]. intros Hpid. unfold finalize. run.
      destruct (last (steps wf)); [|done].
      cbn [fst snd store]. by rewrite lookup_insert_ne.
  - destruct m.
    + by rewrite finalize_GET_world.
    + destruct w as [st d ns]. unfold finalize. run.
      by destruct (last (steps wf)).
  - rewrite unfinalize_eq. cbn [snd store]. by rewrite lookup_insert_ne.
  - by rewrite unfinalize_eq.
Qed.

(** ** The two completeness tests *)

(** X13: [init] tests completeness by the presence of each step's field,
    finalize by its truth: a state that is complete for finalize is complete
    for [init]; both agree with rendering on what finalized means. *)
Theorem complete_for_finalize_is_complete_for_init wf
    (state : gmap string entry) :
  all_complete wf state = true →
  init_all_steps_complete wf state = true ∧
  init_is_finalized state = is_finalized state.
Proof.
  intros H. split.
  - unfold all_complete, init_all_steps_complete in *.
    rewrite forallb_forall in *. intros s Hs. specialize (H s Hs).
    unfold has_data in H.
    destruct (state !! id s) as [[d|x]|]; try done.
    simpl. apply bool_decide_eq_true_2.
    destruct (d !! done s); [by eexists|done].
  - unfold init_is_finalized, is_finalized.
    by destruct (state !! "finalize").
Qed.

(** ** Repeating a submission; the steps before *)

(** X14: submitting the same form to the same step a second time gives
    the same answer and leaves the pipeline table as the first submission
    left it. *)
Theorem resubmit_same_value wf k form w i p step :
  steps_indices wf !! k = Some i →
  steps wf !! i = Some step →
  done step ≠ "finalized" →
  (validate_step wf k (default "" (form !! done step))).1 = true →
  step_position k (steps wf) = Some p →
  let w1 := (handle_step_submit wf k form w).2 in
  (handle_step_submit wf k form w1).1 = (handle_step_submit wf k form w).1 ∧
  store (handle_step_submit wf k form w1).2 = store w1.
Proof.
  intros Hidx Hstep Hreg Hvalid Hpos w1. subst w1.
  rewrite !(handle_step_submit_regular wf k form _ i p step) by done.
  cbn [fst snd store]. split; [done|].
  rewrite current_state_insert. unfold pipeline_id_of. cbn [db].
  rewrite insert_insert_eq. f_equal.
  unfold submitted_state. apply map_eq. intros j.
  pose proof (step_position_in_drop _ _ _ Hpos) as Hk.
  destruct (decide ("_revert_target" = j)) as [<-|Hj].
  { by rewrite !lookup_delete_eq. }
  rewrite !lookup_delete_ne by done.
  destruct (decide (k = j)) as [<-|Hkj].
  { by rewrite !lookup_insert_eq. }
  rewrite !lookup_insert_ne by done.
  destruct (decide (j ∈ id <$> drop p (steps wf))) as [Hin|Hin].
  - by rewrite !clear_entries_cleared.
  - rewrite !clear_entries_other by done.
    rewrite lookup_delete_ne by done. rewrite lookup_insert_ne by done.
    by rewrite clear_entries_other.
Qed.

Lemma earlier_step_not_in_drop (l : list Step) j p s :
  NoDup (id <$> l) → j < p → l !! j = Some s → id s ∉ id <$> drop p l.
Proof.
  intros Hnd Hlt Hj (s' & Heq & Hs')%list_elem_of_fmap.
  apply list_elem_of_lookup in Hs' as [q Hq]. rewrite lookup_drop in Hq.
  assert (j = p + q); [|lia].
  eapply NoDup_lookup; [exact Hnd| |].
  - by rewrite list_lookup_fmap, Hj.
  - by rewrite list_lookup_fmap, Hq; simpl; rewrite Heq.
Qed.

(** X15: a valid submission to a step leaves the entry of every earlier
    step as it was. *)
Theorem submit_keeps_earlier_steps wf k form w i step j s :
  steps_indices wf !! k = Some i →
  steps wf !! i = Some step →
  done step ≠ "finalized" →
  (validate_step wf k (default "" (form !! done step))).1 = true →
  NoDup (id <$> steps wf) →
  j < i →
  steps wf !! j = Some s →
  id s ≠ "_revert_target" →
  current_state (handle_step_submit wf k form w).2 !! id s
  = current_state w !! id s.
Proof.
  intros Hidx Hstep Hreg Hvalid Hnd Hlt Hj Hrt.
  destruct (steps_indices_Some _ _ _ Hidx) as (s0 & Hs0 & Hid).
  assert (s0 = step) by congruence. subst s0.
  pose proof (step_position_NoDup _ _ _ Hnd Hstep) as Hpos.
  rewrite Hid in Hpos.
  rewrite (handle_step_submit_regular wf k form w i i step) by done.
  cbn [snd]. rewrite current_state_insert. unfold submitted_state.
  rewrite lookup_delete_ne by done.
  rewrite lookup_insert_ne.
  - apply clear_entries_other. by eapply earlier_step_not_in_drop.
  - intros Heq. assert (i = j); [|lia].
    eapply NoDup_lookup; [exact Hnd| |].
    + by rewrite list_lookup_fmap, Hstep; simpl; rewrite Hid.
    + by rewrite list_lookup_fmap, Hj; simpl; rewrite Heq.
Qed.

(** X16: a revert to a step leaves the entry of every earlier step as it
    was. *)
Theorem revert_keeps_earlier_steps wf form w k p j s :
  form !! "step_id" = Some k →
  k ≠ "" →
  step_position k (steps wf) = Some p →
  NoDup (id <$> steps wf) →
  j < p →
  steps wf !! j = Some s →
  id s ≠ "_revert_target" →
  current_state (handle_revert wf form w).2 !! id s
  = current_state w !! id s.
Proof.
  intros Hform Hne Hpos Hnd Hlt Hj Hrt.
  rewrite (handle_revert_known wf form w k p) by done.
  cbn [snd]. rewrite current_state_insert.
  rewrite lookup_insert_ne by done.
  apply clear_entries_other. by eapply earlier_step_not_in_drop.
Qed.

(** ** Suggestions that are empty *)

Lemma list_find_NoDup (l : list Step) i step :
  NoDup (id <$> l) → l !! i = Some step →
  list_find (λ s, id s = id step) l = Some (i, step).
Proof.
  intros Hnd Hi.
  pose proof (step_position_NoDup l i step Hnd Hi) as Hpos.
  unfold step_position in Hpos.
  destruct (list_find _ l) as [[j s]|] eqn:E; simplify_eq/=.
  apply list_find_Some in E as (Hj & _ & _). congruence.
Qed.

(** X17: the suggestion is the empty string, without any read of the
    session or the table, for a step id that is not in the workflow, for a
    step without a transform and for the first step. *)
Theorem get_suggestion_empty wf i step k w :
  (k ∉ id <$> steps wf → get_suggestion wf k w = (Ok (VStr ""), w)) ∧
  (NoDup (id <$> steps wf) →
   steps wf !! i = Some step →
   transform step = None ∨ i = 0 →
   get_suggestion wf (id step) w = (Ok (VStr ""), w)).
Proof.
  split.
  - intros Hk. unfold get_suggestion.
    destruct (list_find _ _) as [[j s]|] eqn:E; [|done].
    apply list_find_Some in E as (Hj & Hid & _).
    exfalso. apply Hk. rewrite <- Hid. apply list_elem_of_fmap.
    exists s. split; [done|]. apply list_elem_of_lookup. eauto.
  - intros Hnd Hi Hcase. unfold get_suggestion.
    rewrite (list_find_NoDup _ i step) by done.
    destruct (transform step) as [f|]; [|done].
    destruct Hcase as [?| ->]; [done|].
    assert (E : steps_indices wf !! id step = Some 0).
    { unfold steps_indices. by rewrite (indices_from_NoDup _ 0 ∅ 0 step). }
    destruct w. run. by rewrite E.
Qed.

(** X18: for a later step with a transform, the suggestion is the
    transform of the value under the key ["name"] of the previous step's
    entry, whatever field that step itself writes, and the empty string when
    that key is absent or its value empty. *)
Theorem get_suggestion_reads_name wf j step prev f pid d w :
  NoDup (id <$> steps wf) →
  steps wf !! S j = Some step →
  steps wf !! j = Some prev →
  transform step = Some f →
  db w !! "pipeline_id" = Some pid →
  state_of pid w !! id prev = Some (Data d) →
  get_suggestion wf (id step) w
  = (Ok (match d !! "name" with
         | Some v => if truthy v then f v else VStr ""
         | None => VStr ""
         end), w).
Proof.
  intros Hnd Hstep Hprev Hf Hdb Hdata. unfold get_suggestion.
  rewrite (list_find_NoDup _ (S j) step) by done. rewrite Hf.
  assert (E : steps_indices wf !! id step = Some (S j)).
  { unfold steps_indices. by rewrite (indices_from_NoDup _ 0 ∅ (S j) step). }
  revert Hdb Hdata. destruct w as [st dd ns]. unfold state_of.
  cbn [store db]. intros Hdb Hdata. run. rewrite E, Hprev.
  cbv beta iota delta [fst snd store db notices]. rewrite Hdb.
  cbv beta iota delta [fst snd store db notices]. rewrite Hdata.
  cbn [from_option Datatypes.id]. by destruct (d !! "name").
Qed.

(** X19: rendering a step streams the step's input notice exactly when it
    answers with the input form, and nothing otherwise. *)
Theorem render_notice wf k w :
  notices (handle_step wf k w).2
  = (notices w ++
     if is_input_form (handle_step wf k w).1 then [StepInputMessage k]
     else [])%list.
Proof.
  pose proof (get_suggestion_world wf k w) as Hsug.
  destruct (get_suggestion wf k w) as [r ws] eqn:Esug.
  simpl in Hsug. subst ws. revert Esug.
  destruct w as [st d ns]. intros Esug.
  unfold handle_step, lookup_step. run.
  destruct (steps_indices wf !! k) as [i|]; [|by rewrite app_nil_r].
  destruct (steps wf !! i) as [step|]; [|by rewrite app_nil_r].
  cbv beta iota delta [fst snd store db notices].
  destruct (default (Data ∅) _) as [dd|x]; [|by rewrite app_nil_r].
  destruct (bool_decide (done step = "finalized")).
  { destruct (contains "finalized" _); by rewrite app_nil_r. }
  destruct (contains "finalized" _); [by rewrite app_nil_r|].
  destruct (truthy _ && not_revert_target _ k); [by rewrite app_nil_r|].
  destruct (refill step && truthy _ && PRESERVE_REFILL wf); [done|].
  rewrite Esug. destruct r; [done|by rewrite app_nil_r].
Qed.

(** ** The further properties on HelloFlow *)

Lemma placeholders_chain_witness :
  generate_step_placeholders HelloFlow !! 1
  = Some (Placeholder "step_02" "/hello/step_02" (StepComplete "step_01")).
Proof.
  exact (proj2 (placeholders_chain HelloFlow 1
                  (mkStep "step_02" "greeting" "Hello Message" false
                     (Some (λ name, VStr ("Hello " +:+ py_str name))))
                  eq_refl)).
Defined.

Lemma hello_ids_NoDup : NoDup (id <$> steps HelloFlow).
Proof. compute_done. Qed.

Lemma lookup_step_roundtrip_witness :
  steps_indices HelloFlow !! "finalize" = Some 2.
Proof.
  exact (proj1 (lookup_step_roundtrip HelloFlow 2
                  (mkStep "finalize" "finalized" "Finalize" false None)
                  hello_new hello_ids_NoDup eq_refl)).
Defined.

Lemma unknown_step_raises_witness :
  handle_step HelloFlow "step_03" hello_complete
  = (Raise (KeyError "step_03"), hello_complete).
Proof.
  refine (proj1 (unknown_step_raises HelloFlow "step_03" ∅ hello_complete _)).
  compute_done.
Defined.

Lemma finalize_submit_locks_witness :
  is_finalized
    (current_state (handle_step_submit HelloFlow "finalize" ∅ hello_new).2)
  = true.
Proof.
  destruct (finalize_submit_locks HelloFlow "finalize" ∅ hello_new 2
              (mkStep "finalize" "finalized" "Finalize" false None)
              eq_refl eq_refl eq_refl) as (_ & _ & _ & _ & H).
  exact (H eq_refl).
Defined.

Lemma invalid_submission_rejected_witness :
  handle_step_submit StrictFlow "step_01" {["name" := ""]} hello_named
  = (Ok (ErrorP "Required"), hello_named).
Proof.
  apply (invalid_submission_rejected StrictFlow "step_01" {["name" := ""]}
           hello_named 0 (mkStep "step_01" "name" "Your Name" true None));
    [reflexivity|reflexivity|discriminate|reflexivity].
Defined.

Lemma finalize_POST_then_GET_witness :
  let w1 := (finalize HelloFlow POST "2025-01-01T00:00:00" hello_new).2 in
  finalize HelloFlow GET "2025-01-02T00:00:00" w1 = (Ok AllCardsComplete, w1).
Proof.
  exact (proj2 (finalize_POST_then_GET HelloFlow "2025-01-01T00:00:00"
                  "2025-01-02T00:00:00" hello_new
                  (mkStep "finalize" "finalized" "Finalize" false None)
                  eq_refl eq_refl eq_refl)).
Defined.

Lemma finalize_then_render_locked_witness :
  let w1 := (finalize HelloFlow POST "2025-01-01T00:00:00" hello_complete).2 in
  handle_step HelloFlow "step_01" w1
  = (Ok (Locked "Your Name" (VStr "Ada") (Some "step_02")), w1).
Proof.
  apply (finalize_then_render_locked HelloFlow "2025-01-01T00:00:00"
           "step_01" hello_complete 0
           (mkStep "step_01" "name" "Your Name" true None) (VStr "Ada"));
    [reflexivity|reflexivity|discriminate|reflexivity|discriminate
    |discriminate|discriminate].
Defined.

Lemma unfinalize_unlocks_witness :
  let w1 := (unfinalize HelloFlow hello_finalized).2 in
  handle_step HelloFlow "step_01" w1
  = (Ok (Completed "step_01" "Your Name: Ada" (Some "step_02")), w1).
Proof.
  refine (proj2 (unfinalize_unlocks HelloFlow "step_01" hello_finalized 0
                   (mkStep "step_01" "name" "Your Name" true None)
                   (VStr "Ada") eq_refl eq_refl _ eq_refl _ eq_refl));
    discriminate.
Defined.

Lemma submit_then_render_witness :
  let w1 := (handle_step_submit HelloFlow "step_01" {["name" := "Ada"]}
               hello_new).2 in
  handle_step HelloFlow "step_01" w1
  = (Ok (Completed "step_01" "Your Name: Ada" (Some "step_02")), w1).
Proof.
  refine (proj1 (submit_then_render HelloFlow "step_01" {["name" := "Ada"]}
                   hello_new 0 (mkStep "step_01" "name" "Your Name" true None)
                   eq_refl eq_refl _ eq_refl hello_ids_NoDup _ eq_refl) _);
    discriminate.
Defined.


Lemma handlers_frame_witness :
  store (handle_step_submit HelloFlow "step_01" {["name" := "Grace"]}
           hello_two).2 !! Some "q"
  = store hello_two !! Some "q".
Proof.
  refine (proj1 (proj1 (handlers_frame HelloFlow "step_01"
                          {["name" := "Grace"]} POST "2025-01-01T00:00:00"
                          hello_two (Some "q") _))).
  discriminate.
Defined.

Lemma complete_for_finalize_is_complete_for_init_witness :
  init_all_steps_complete HelloFlow (current_state hello_complete) = true ∧
  init_all_steps_complete HelloFlow (current_state hello_blank) = true ∧
  all_complete HelloFlow (current_state hello_blank) = false.
Proof.
  split; [|by split].
  exact (proj1 (complete_for_finalize_is_complete_for_init HelloFlow
                  (current_state hello_complete) eq_refl)).
Defined.

Lemma resubmit_same_value_witness :
  let w1 := (handle_step_submit HelloFlow "step_01" {["name" := "Ada"]}
               hello_complete).2 in
  store (handle_step_submit HelloFlow "step_01" {["name" := "Ada"]} w1).2
  = store w1.
Proof.
  exact (proj2 (resubmit_same_value HelloFlow "step_01" {["name" := "Ada"]}
                  hello_complete 0 0
                  (mkStep "step_01" "name" "Your Name" true None)
                  eq_refl eq_refl ltac:(discriminate) eq_refl eq_refl)).
Defined.

Lemma submit_keeps_earlier_steps_witness :
  current_state
    (handle_step_submit HelloFlow "step_02" {["greeting" := "Hi"]}
       hello_complete).2 !! "step_01"
  = Some (Data {["name" := VStr "Ada"]}).
Proof.
  exact (submit_keeps_earlier_steps HelloFlow "step_02" {["greeting" := "Hi"]}
           hello_complete 1
           (mkStep "step_02" "greeting" "Hello Message" false
              (Some (λ name, VStr ("Hello " +:+ py_str name))))
           0 (mkStep "step_01" "name" "Your Name" true None)
           eq_refl eq_refl ltac:(discriminate) eq_refl hello_ids_NoDup
           ltac:(lia) eq_refl ltac:(discriminate)).
Defined.

Lemma revert_keeps_earlier_steps_witness :
  current_state
    (handle_revert HelloFlow {["step_id" := "step_02"]} hello_complete).2
    !! "step_01"
  = Some (Data {["name" := VStr "Ada"]}).
Proof.
  exact (revert_keeps_earlier_steps HelloFlow {["step_id" := "step_02"]}
           hello_complete "step_02" 1 0
           (mkStep "step_01" "name" "Your Name" true None)
           eq_refl ltac:(discriminate) eq_refl hello_ids_NoDup
           ltac:(lia) eq_refl ltac:(discriminate)).
Defined.

Lemma get_suggestion_empty_witness :
  get_suggestion HelloFlow "step_09" hello_complete
    = (Ok (VStr ""), hello_complete) ∧
  get_suggestion HelloFlow "step_01" hello_complete
    = (Ok (VStr ""), hello_complete).
Proof.
  destruct (get_suggestion_empty HelloFlow 0
              (mkStep "step_01" "name" "Your Name" true None)
              "step_09" hello_complete) as [H1 H2].
  split.
  - apply H1. compute_done.
  - apply (H2 hello_ids_NoDup eq_refl). by right.
Defined.

Lemma get_suggestion_reads_name_witness :
  get_suggestion HelloFlow "step_02" hello_named
  = (Ok (VStr "Hello Ada"), hello_named).
Proof.
  exact (get_suggestion_reads_name HelloFlow 0
           (mkStep "step_02" "greeting" "Hello Message" false
              (Some (λ name, VStr ("Hello " +:+ py_str name))))
           (mkStep "step_01" "name" "Your Name" true None)
           (λ name, VStr ("Hello " +:+ py_str name))
           (Some "p") {["name" := VStr "Ada"]} hello_named
           hello_ids_NoDup eq_refl eq_refl eq_refl eq_refl eq_refl).
Defined.
